(** * EastVsWest asset generators: [scripts/generate_shadow.py] and
    [scripts/generate_spritesheet.py]

    Both scripts are straight-line Python over the Pillow drawing API.  The
    development embeds them as Rocq functions:

    - Python [float]s are binary64 numbers ([PrimFloat]), Python [int]s are [Z];
    - the scripts' effects (the file system, the font lookup, standard output,
      exceptions) live in a state-and-exception monad over a [World];
    - Pillow and the C mathematics library are outside the repository; the
      modules [math], [Image], [ImageFont] and [ImageDraw] below model the
      entry points the scripts call. *)

From Stdlib Require Import ZArith Floats Lia.
From stdpp Require Import base option list strings pretty gmap.

Open Scope Z_scope.

(** ** Python values *)

(** [float(z)] for a Python integer: the nearest binary64 number. *)
Definition float_of_int (z : Z) : float :=
  SF2Prim (binary_normalize prec emax z 0 false).

(** The C cast [(int) x] that Pillow applies to every coordinate it is
    handed: truncation towards zero. *)
Definition c_int (x : float) : Z :=
  match Prim2SF x with
  | S754_finite s m e =>
      let q := if 0 <=? e then Z.shiftl (Z.pos m) e
               else Z.shiftr (Z.pos m) (- e) in
      if s then - q else q
  | _ => 0
  end.

(** [range(n)] and [enumerate(l)]. *)
Definition range (n : Z) : list Z := Z.of_nat <$> seq 0 (Z.to_nat n).

Definition enumerate {A} (l : list A) : list (Z * A) :=
  imap (fun i a => (Z.of_nat i, a)) l.

(** Exceptions the two scripts can meet. *)
Inductive exn :=
| KeyError (key : Z)
| FileNotFoundError (path : list string)
| NotADirectoryError (path : list string)
| IsADirectoryError (path : list string)
| OSError (msg : string)
| ImportError (msg : string)
| UnidentifiedImageError (path : list string).

Definition result (A : Type) : Type := exn + A.
Abbreviation Ok := inr (only parsing).
Abbreviation Err := inl (only parsing).

(** [d[k]] on a dict with integer keys. *)
Definition dict_getitem {V} (d : gmap Z V) (k : Z) : result V :=
  match d !! k with
  | Some v => Ok v
  | None => Err (KeyError k)
  end.

(** ** The [math] module

    [math.sin] and [math.cos] are the C library's.  They are modelled by the
    alternating Taylor series, summed in fixed point with [fix_bits]
    fractional bits and rounded once to the nearest binary64 number; no
    argument reduction is done, so the model is meant for arguments of
    magnitude at most 8, which covers everything the generator passes
    (angles in [0, 2*pi)). *)
Module math.

Definition pi : float := 0x1.921fb54442d18p+1%float.

(** CPython: [x * (pi / 180.0)]. *)
Definition radians (x : float) : float := (x * (pi / 180))%float.

Definition fix_bits : Z := 128.
Definition fix_one : Z := Z.shiftl 1 fix_bits.
Definition fix_mul (a b : Z) : Z := Z.shiftr (a * b) fix_bits.

Definition fix_of_float (x : float) : option Z :=
  match Prim2SF x with
  | S754_zero _ => Some 0
  | S754_finite s m e =>
      let q := Z.shiftl (Z.pos m) (e + fix_bits) in
      Some (if s then - q else q)
  | _ => None
  end.

Definition float_of_fix (v : Z) : float :=
  SF2Prim (binary_normalize prec emax v (- fix_bits) false).

(** [acc + sum_j (-1)^j * term * x2^j / ((k+1)...(k+2j))], [n] terms. *)
Fixpoint alt_series (n : nat) (k x2 term acc : Z) : Z :=
  match n with
  | O => acc
  | S n' =>
      let term' := - (fix_mul term x2 / ((k + 1) * (k + 2))) in
      alt_series n' (k + 2) x2 term' (acc + term')
  end.

Definition series_terms : nat := 40.

Definition fix_sin (v : Z) : Z :=
  alt_series series_terms 1 (fix_mul v v) v v.

Definition fix_cos (v : Z) : Z :=
  alt_series series_terms 0 (fix_mul v v) fix_one fix_one.

Definition sin (x : float) : float :=
  match Prim2SF x with
  | S754_zero _ => x
  | _ => match fix_of_float x with
         | Some v => float_of_fix (fix_sin v)
         | None => nan
         end
  end.

Definition cos (x : float) : float :=
  match fix_of_float x with
  | Some v => float_of_fix (fix_cos v)
  | None => nan
  end.

End math.

(** ** Images, fonts and the world the scripts run in *)

Definition RGBA : Type := Z * Z * Z * Z.

Definition alpha (c : RGBA) : Z := c.2.

(** A Pillow image: mode, [(width, height)] and the pixel buffer. *)
Record Image := {
  im_mode : string;
  im_size : Z * Z;
  im_pixel : Z -> Z -> RGBA
}.

Definition in_bounds (im : Image) (px py : Z) : bool :=
  (0 <=? px) && (px <? (im_size im).1) && (0 <=? py) && (py <? (im_size im).2).

(** [im.getpixel((px, py))] for coordinates inside the image. *)
Definition getpixel (im : Image) (px py : Z) : option RGBA :=
  if in_bounds im px py then Some (im_pixel im px py) else None.

(** The mask a font renders for a text: where it sits relative to the
    drawing position, its extent, and its coverage (0 to 255) per pixel. *)
Record Bitmap := {
  bm_offset : Z * Z;
  bm_extent : Z * Z;
  bm_coverage : Z -> Z -> Z
}.

(** A font at one size. *)
Definition Font : Type := string -> Bitmap.

(** Absolute paths, as their components from the root. *)
Definition path : Type := list string.

Inductive FileData :=
| PngData (im : Image)
| FontData (face : Z -> Font)
| OtherData (bytes : list Z).

Record World := {
  cwd : path;
  dirs : gset path;
  files : gmap path FileData;
  have_freetype : bool;
  default_font : Font;
  stdout : list string
}.

Definition set_files (f : gmap path FileData) (w : World) : World :=
  {| cwd := cwd w; dirs := dirs w; files := f;
     have_freetype := have_freetype w; default_font := default_font w;
     stdout := stdout w |}.

Definition add_stdout (line : string) (w : World) : World :=
  {| cwd := cwd w; dirs := dirs w; files := files w;
     have_freetype := have_freetype w; default_font := default_font w;
     stdout := stdout w ++ [line] |}.

(** ** Path names *)
Module os_path.

Definition slash : Ascii.ascii := Ascii.ascii_of_nat 47.

Fixpoint split_from (cur s : string) : list string :=
  match s with
  | EmptyString => [cur]
  | String c s' =>
      if Ascii.eqb c slash then cur :: split_from "" s'
      else split_from (cur +:+ String c "") s'
  end.

Definition components (name : string) : list string := split_from "" name.

Definition isabs (name : string) : bool :=
  match name with
  | String c _ => Ascii.eqb c slash
  | EmptyString => false
  end.

Definition step (p : path) (c : string) : path :=
  if bool_decide (c = "" \/ c = ".") then p
  else if bool_decide (c = "..") then removelast p
  else p ++ [c].

(** The file a path name denotes from the directory [from]. *)
Definition resolve (from : path) (name : string) : path :=
  fold_left step (components name) (if isabs name then [] else from).

End os_path.

(** ** Effects: state over the world, with exceptions *)
Definition M (A : Type) : Type := World -> result A * World.

Definition ret {A} (a : A) : M A := fun w => (Ok a, w).

Definition bind {A B} (m : M A) (k : A -> M B) : M B :=
  fun w =>
    match m w with
    | (inr a, w') => k a w'
    | (inl e, w') => (Err e, w')
    end.

Definition lift {A} (r : result A) : M A := fun w => (r, w).

(** [try: body except: handler], with a bare [except]. *)
Definition try_except {A} (body handler : M A) : M A :=
  fun w =>
    match body w with
    | (inr a, w') => (Ok a, w')
    | (inl _, w') => handler w'
    end.

#[global] Instance M_ret : MRet M := @ret.
#[global] Instance M_bind : MBind M := fun A B k m => bind m k.

(** [for a in l: s = body(s, a)]. *)
Fixpoint for_each {A S} (l : list A) (body : S -> A -> M S) (s : S) : M S :=
  match l with
  | [] => ret s
  | a :: l' => s' ← body s a; for_each l' body s'
  end.

Definition print (line : string) : M unit :=
  fun w => (Ok tt, add_stdout line w).

(** ** [PIL.Image] *)
Module Image.

Definition new (mode : string) (size : Z * Z) (color : RGBA) : Image :=
  {| im_mode := mode; im_size := size; im_pixel := fun _ _ => color |}.

(** The error [open] meets on the way to a file, if any: the directories
    the name goes through are looked up one after the other from [from],
    and the first one that is not a directory stops the walk, with
    [NotADirectoryError] if a file is there and [FileNotFoundError] if
    nothing is.  The last component, the file itself, is not looked at, and
    [.] and [..] lead to directories. *)
Fixpoint lookup_error (w : World) (target from : path) (comps : list string)
    : option exn :=
  match comps with
  | [] => None
  | c :: rest =>
      match rest with
      | [] => None
      | _ :: _ =>
          let q := os_path.step from c in
          if bool_decide (c = "" \/ c = "." \/ c = "..")
          then lookup_error w target q rest
          else if bool_decide (q ∈ dirs w) then lookup_error w target q rest
          else if bool_decide (is_Some (files w !! q))
               then Some (NotADirectoryError target)
               else Some (FileNotFoundError target)
      end
  end.

Definition missing_error (w : World) (name : string) : exn :=
  let p := os_path.resolve (cwd w) name in
  default (FileNotFoundError p)
    (lookup_error w p (if os_path.isabs name then [] else cwd w)
       (os_path.components name)).

(** [im.save(name)], and [im.save(name, "PNG")]: both scripts write PNG
    files.  The file is opened for writing, which needs its directory to
    exist and replaces whatever file was there; no directory is created. *)
Definition save (im : Image) (name : string) : M unit :=
  fun w =>
    let p := os_path.resolve (cwd w) name in
    let parent := removelast p in
    if bool_decide (p ∈ dirs w) then (Err (IsADirectoryError p), w)
    else if bool_decide (parent ∈ dirs w) then
      (Ok tt, set_files (<[p := PngData im]> (files w)) w)
    else (Err (missing_error w name), w).

Definition open (name : string) : M Image :=
  fun w =>
    let p := os_path.resolve (cwd w) name in
    match files w !! p with
    | Some (PngData im) => (Ok im, w)
    | Some _ => (Err (UnidentifiedImageError p), w)
    | None =>
        if bool_decide (p ∈ dirs w) then (Err (IsADirectoryError p), w)
        else (Err (missing_error w name), w)
    end.

End Image.

(** ** [PIL.ImageFont] *)
Module ImageFont.

Definition truetype (name : string) (size : Z) : M Font :=
  fun w =>
    if have_freetype w then
      match files w !! os_path.resolve (cwd w) name with
      | Some (FontData face) => (Ok (face size), w)
      | Some _ => (Err (OSError "unknown file format"), w)
      | None => (Err (OSError "cannot open resource"), w)
      end
    else (Err (ImportError "The _imagingft C module is not installed"), w).

Definition load_default : M Font := fun w => (Ok (default_font w), w).

End ImageFont.

(** ** [PIL.ImageDraw]

    Shapes are painted by replacing pixels (the image is its own drawing
    mode), clipped to the image.  Pillow's rasterisers are C code outside
    the repository.  Ellipses follow its rasteriser step by step.  A wide
    line is approximated by the pixels within half its width of the
    segment, inside the segment's box grown by the width: the properties
    below use only that box. *)
Module ImageDraw.

Definition Box : Type := Z * Z * Z * Z.

Definition in_box (b : Box) (px py : Z) : bool :=
  let '(x0, y0, x1, y1) := b in
  (x0 <=? px) && (px <=? x1) && (y0 <=? py) && (py <=? y1).

Definition int_box (xy : float * float * float * float) : Box :=
  let '(x0, y0, x1, y1) := xy in (c_int x0, c_int y0, c_int x1, c_int y1).

Definition paint (mask : Z -> Z -> bool) (ink : RGBA) (im : Image) : Image :=
  {| im_mode := im_mode im; im_size := im_size im;
     im_pixel := fun px py =>
       if in_bounds im px py && mask px py then ink else im_pixel im px py |}.

(** *** The ellipse rasteriser (Pillow, [libImaging/Draw.c])

    A quarter of the ellipse with axes [a] and [b] is walked in doubled
    coordinates from [(a, b mod 2)] to [(a mod 2, b)]; each step goes up,
    left or both, to the neighbour nearest the curve
    [a^2 y^2 + b^2 x^2 = a^2 b^2]. *)
Definition quarter_delta (a b qx qy : Z) : Z :=
  Z.abs (a * a * qy * qy + b * b * qx * qx - a * a * b * b).

Definition quarter_step (a b cx cy : Z) : Z * Z :=
  let up := (cx, cy + 2) in
  let d_up := quarter_delta a b cx (cy + 2) in
  if 1 <? cx then
    let d_diag := quarter_delta a b (cx - 2) (cy + 2) in
    let '(best, d_best) :=
      if d_diag <? d_up then ((cx - 2, cy + 2), d_diag) else (up, d_up) in
    if quarter_delta a b (cx - 2) cy <? d_best then (cx - 2, cy) else best
  else up.

Fixpoint quarter_walk (fuel : nat) (a b cx cy : Z) : list (Z * Z) :=
  match fuel with
  | O => []
  | S fuel' =>
      (cx, cy) ::
      if (cx =? a `mod` 2) && (cy =? b) then []
      else let '(nx, ny) := quarter_step a b cx cy in
           quarter_walk fuel' a b nx ny
  end.

(** The points [quarter_next] returns, in order; none for a negative
    axis.  Every step moves up or left by 2, so [a + b + 2] steps reach the
    end point. *)
Definition quarter_points (a b : Z) : list (Z * Z) :=
  if (a <? 0) || (b <? 0) then []
  else quarter_walk (Z.to_nat (a + b + 2)) a b a (b `mod` 2).

(** The next point of the outer quarter above row [qy], with the points
    after it. *)
Fixpoint above_row (qy : Z) (pts : list (Z * Z)) : list (Z * Z) :=
  match pts with
  | [] => []
  | (cx, cy) :: rest => if cy <=? qy then above_row qy rest else pts
  end.

(** The inner quarter up to row [qy]: the x of its last point there (or
    [l] if it has none), with the points above. *)
Fixpoint inner_at_row (qy l : Z) (pts : list (Z * Z)) : Z * list (Z * Z) :=
  match pts with
  | [] => (l, [])
  | (cx, cy) :: rest =>
      if cy <=? qy then inner_at_row qy cx rest else (l, pts)
  end.

(** A horizontal run [(left, row, right)], in doubled coordinates about the
    centre of the box. *)
Definition Span : Type := Z * Z * Z.

Definition row_spans (qy l r : Z) : list Span :=
  (if ((0 <? l) || (l <? r)) && (0 <? qy) then [(- r, qy, - l)] else [])
  ++ (if 0 <? qy then [(l, qy, r)] else [])
  ++ (if (0 <? l) || (l <? r) then [(- r, - qy, - l)] else [])
  ++ [(l, - qy, r)].

(** [ellipse_next], row after row: [py], [pl], [pr] are the row and the
    left and right ends reached so far. *)
Fixpoint ellipse_rows (fuel : nat) (leftmost : Z) (outer inner : list (Z * Z))
    (py pl pr : Z) : list Span :=
  match fuel with
  | O => []
  | S fuel' =>
      let '(l, inner1) := inner_at_row py pl inner in
      let '(pl', inner') :=
        match inner1 with
        | [] => (leftmost, [])
        | (cx, _) :: rest => (cx, rest)
        end in
      row_spans py l pr ++
      match above_row py outer with
      | [] => []
      | (cx, cy) :: rest => ellipse_rows fuel' leftmost rest inner' cy pl' cx
      end
  end.

Definition ellipse_spans (a b width : Z) : list Span :=
  if width <? 1 then []
  else
    match quarter_points a b with
    | [] => []
    | (pr, py) :: outer =>
        ellipse_rows (S (length outer)) (a `mod` 2) outer
          (quarter_points (a - 2 * (width - 1)) (b - 2 * (width - 1)))
          py (a `mod` 2) pr
    end.

(** [ellipseNew]: the pixels of the ellipse in box [bx], filled or as an
    outline of the given width.  Each span becomes a horizontal line of the
    image; the spans never leave the box. *)
Definition ellipse_mask (bx : Box) (fill : bool) (width px py : Z) : bool :=
  let '(x0, y0, x1, y1) := bx in
  let a := x1 - x0 in
  let b := y1 - y0 in
  in_box bx px py &&
  existsb
    (fun sp : Span =>
       let '(sl, sy, sr) := sp in
       (py =? y0 + (sy + b) `div` 2)
       && (x0 + (sl + a) `div` 2 <=? px) && (px <=? x0 + (sr + a) `div` 2))
    (ellipse_spans a b (if fill then a + b else width)).

Definition inside_ellipse (b : Box) (px py : Z) : bool :=
  ellipse_mask b true 1 px py.

Definition ellipse_outline (b : Box) (width px py : Z) : bool :=
  ellipse_mask b false width px py.

Definition default_ink : RGBA := (255, 255, 255, 255).

(** [ImageDraw._getink]: with neither colour given, the default ink is
    used as the outline. *)
Definition getink (ink fill : option RGBA) : option RGBA * option RGBA :=
  match ink, fill with
  | None, None => (Some default_ink, None)
  | _, _ => (ink, fill)
  end.

Definition ellipse (im : Image) (xy : float * float * float * float)
    (fill outline : option RGBA) (width : Z) : Image :=
  let b := int_box xy in
  let '(ink, fill_ink) := getink outline fill in
  let im1 :=
    match fill_ink with
    | Some c => paint (inside_ellipse b) c im
    | None => im
    end in
  match ink with
  | Some c =>
      if bool_decide (ink <> fill_ink /\ width <> 0)
      then paint (ellipse_outline b width) c im1
      else im1
  | None => im1
  end.

Definition grow (b : Box) (d : Z) : Box :=
  let '(x0, y0, x1, y1) := b in (x0 - d, y0 - d, x1 + d, y1 + d).

Definition segment_box (p0 p1 : Z * Z) : Box :=
  (Z.min p0.1 p1.1, Z.min p0.2 p1.2, Z.max p0.1 p1.1, Z.max p0.2 p1.2).

Definition on_line (p0 p1 : Z * Z) (width px py : Z) : bool :=
  let dx := p1.1 - p0.1 in
  let dy := p1.2 - p0.2 in
  let len2 := dx * dx + dy * dy in
  let along := (px - p0.1) * dx + (py - p0.2) * dy in
  let across := (px - p0.1) * dy - (py - p0.2) * dx in
  if (dx =? 0) && (dy =? 0) then (px =? p0.1) && (py =? p0.2)
  else
    in_box (grow (segment_box p0 p1) width) px py &&
    (0 <=? along) && (along <=? len2) &&
    (4 * across * across <=? width * width * len2).

Definition line (im : Image) (xy : (float * float) * (float * float))
    (fill : option RGBA) (width : Z) : Image :=
  let p0 := (c_int xy.1.1, c_int xy.1.2) in
  let p1 := (c_int xy.2.1, c_int xy.2.2) in
  let ink := default (default_ink) (getink fill None).1 in
  paint (on_line p0 p1 (Z.max width 1)) ink im.

(** [BLEND] of Pillow's fill through a mask: [in1] and [in2] mixed by
    [mask]/255, with its rounding division by 255. *)
Definition blend (mask in1 in2 : Z) : Z :=
  let t := in1 * (255 - mask) + in2 * mask + 128 in
  Z.shiftr (Z.shiftr t 8 + t) 8.

(** A text is drawn by filling the ink through the font's mask placed at
    the drawing position ([fill_mask_L]): where the mask is zero the pixel
    is kept; elsewhere every band is mixed with the ink by the mask, except
    that over a fully transparent pixel the colour bands take the ink. *)
Definition text (im : Image) (xy : Z * Z) (label : string)
    (fill : option RGBA) (font : Font) : Image :=
  let ink := default (default_ink) (getink fill None).1 in
  let bm := font label in
  let ox := xy.1 + (bm_offset bm).1 in
  let oy := xy.2 + (bm_offset bm).2 in
  {| im_mode := im_mode im; im_size := im_size im;
     im_pixel := fun px py =>
       let old := im_pixel im px py in
       let m := bm_coverage bm (px - ox) (py - oy) in
       let cm := if alpha old =? 0 then 255 else m in
       if in_bounds im px py
          && in_box (ox, oy, ox + (bm_extent bm).1 - 1, oy + (bm_extent bm).2 - 1) px py
          && negb (m =? 0)
       then (blend cm old.1.1.1 ink.1.1.1, blend cm old.1.1.2 ink.1.1.2,
             blend cm old.1.2 ink.1.2, blend m (alpha old) (alpha ink))
       else old |}.

End ImageDraw.

(** ** [scripts/generate_shadow.py] *)
Module generate_shadow.

Definition size : Z * Z := (96, 96).

Definition shadow_color : RGBA := (0, 0, 0, 100).

Definition shadow_bbox : Z * Z * Z * Z := (20, 55, 76, 85).

Definition float_box (b : Z * Z * Z * Z) : float * float * float * float :=
  let '(x0, y0, x1, y1) := b in
  (float_of_int x0, float_of_int y0, float_of_int x1, float_of_int y1).

(** The image once [draw.ellipse(shadow_bbox, fill=shadow_color)] has
    run. *)
Definition image : Image :=
  ImageDraw.ellipse (Image.new "RGBA" size (0, 0, 0, 0))
    (float_box shadow_bbox) (Some shadow_color) None 1.

Definition script : M unit :=
  Image.save image "../public/shadow.png" ;;
  print "Shadow sprite generated: public/shadow.png".

End generate_shadow.

(** ** [scripts/generate_spritesheet.py]: constants and per-frame geometry *)
Module generate_spritesheet.

Definition FRAME_WIDTH : Z := 96.
Definition FRAME_HEIGHT : Z := 96.
Definition COLUMNS : Z := 6.
Definition ROWS : Z := 8.
Definition SPRITE_SHEET_WIDTH : Z := FRAME_WIDTH * COLUMNS.
Definition SPRITE_SHEET_HEIGHT : Z := FRAME_HEIGHT * ROWS.

Definition DIRECTIONS : list string :=
  [ "South"; "South-East"; "East"; "North-East";
    "North"; "North-West"; "West"; "South-West" ].

(** The dict literal [angle_map] of [create_sprite_sheet]. *)
Definition angle_map : gmap Z Z :=
  <[0 := 90]> (<[1 := 45]> (<[2 := 0]> (<[3 := 315]>
  (<[4 := 270]> (<[5 := 225]> (<[6 := 180]> (<[7 := 135]> ∅))))))).

(** Locals of the loop body, as functions of the loop variables. *)
Definition x (col : Z) : Z := col * FRAME_WIDTH.
Definition y (row : Z) : Z := row * FRAME_HEIGHT.
Definition center_x (col : Z) : Z := x col + FRAME_WIDTH `div` 2.
Definition center_y (row : Z) : Z := y row + FRAME_HEIGHT `div` 2.

Definition animation_offset (col : Z) : float :=
  (math.sin (float_of_int col / float_of_int COLUMNS * math.pi * 2) * 3)%float.

Definition body_radius (col : Z) : float :=
  (25 + animation_offset col)%float.

Definition arrow_length : Z := 15.

Definition angle_deg (row : Z) : result Z := dict_getitem angle_map row.

Definition angle_rad (deg : Z) : float := math.radians (float_of_int deg).

Definition arrow_x (col deg : Z) : float :=
  (float_of_int (center_x col)
   + math.cos (angle_rad deg) * float_of_int arrow_length)%float.

Definition arrow_y (row deg : Z) : float :=
  (float_of_int (center_y row)
   + math.sin (angle_rad deg) * float_of_int arrow_length)%float.

(** The arrow endpoint [(arrow_x, arrow_y)] of frame [(row, col)]; the
    lookup [angle_map[row]] may raise. *)
Definition arrow_tip (row col : Z) : result (float * float) :=
  match angle_deg row with
  | inr deg => Ok (arrow_x col deg, arrow_y row deg)
  | inl e => Err e
  end.

(** The [try]/[except] around the font lookup. *)
Definition label_font : M Font :=
  try_except
    (ImageFont.truetype "/System/Library/Fonts/Supplemental/Arial.ttf" 10)
    ImageFont.load_default.

(** The body of the two loops: one frame drawn into the sheet. *)
Definition draw_frame (row col : Z) (sprite_sheet : Image) : M Image :=
  let body_color : RGBA := (100, 150, 200, 255) in
  let cx := float_of_int (center_x col) in
  let cy := float_of_int (center_y row) in
  let r := body_radius col in
  let sprite_sheet :=
    ImageDraw.ellipse sprite_sheet
      (cx - r, cy - r, cx + r, cy + r)%float
      (Some body_color) (Some (50, 100, 150, 255)) 2 in
  let arrow_color : RGBA := (255, 200, 0, 255) in
  tip ← lift (arrow_tip row col);
  let sprite_sheet :=
    ImageDraw.line sprite_sheet ((cx, cy), tip) (Some arrow_color) 3 in
  let sprite_sheet :=
    ImageDraw.ellipse sprite_sheet
      (tip.1 - 3, tip.2 - 3, tip.1 + 3, tip.2 + 3)%float
      (Some arrow_color) None 1 in
  font ← label_font;
  let frame_label : string := pretty col in
  let text_x := x col + 5 in
  let text_y := y row + 5 in
  ret (ImageDraw.text sprite_sheet (text_x, text_y) frame_label
         (Some (255, 255, 255, 200)) font).

Definition create_sprite_sheet : M Image :=
  let sprite_sheet :=
    Image.new "RGBA" (SPRITE_SHEET_WIDTH, SPRITE_SHEET_HEIGHT) (0, 0, 0, 0) in
  for_each (enumerate DIRECTIONS)
    (fun sheet '(row, direction) =>
       for_each (range COLUMNS) (fun sheet col => draw_frame row col sheet)
         sheet)
    sprite_sheet.

Definition output_path : string :=
  "public/assets/player/player-walk-spritesheet.png".

Definition main : M unit :=
  print "Generating player walking sprite sheet..." ;;
  print ("  Dimensions: " +:+ pretty SPRITE_SHEET_WIDTH +:+ "x"
         +:+ pretty SPRITE_SHEET_HEIGHT +:+ "px") ;;
  print ("  Frame size: " +:+ pretty FRAME_WIDTH +:+ "x"
         +:+ pretty FRAME_HEIGHT +:+ "px") ;;
  print ("  Layout: " +:+ pretty COLUMNS +:+ " frames × "
         +:+ pretty ROWS +:+ " directions") ;;
  sprite_sheet ← create_sprite_sheet;
  Image.save sprite_sheet output_path ;;
  print ("✓ Sprite sheet saved to: " +:+ output_path) ;;
  print ("  File size: (" +:+ pretty (im_size sprite_sheet).1 +:+ ", "
         +:+ pretty (im_size sprite_sheet).2 +:+ ")") ;;
  test_img ← Image.open output_path;
  print ("✓ Verified: " +:+ pretty (im_size test_img).1 +:+ "x"
         +:+ pretty (im_size test_img).2 +:+ "px, mode="
         +:+ im_mode test_img).

End generate_spritesheet.

(** ** Worlds and notions used to state the properties *)

(** A font whose every text renders as a solid 6 by 11 block. *)
Definition block_font : Font :=
  fun _ => {| bm_offset := (0, 0); bm_extent := (6, 11);
              bm_coverage := fun _ _ => 255 |}.

(** A checkout at [/repo] with the shadow script started from
    [/repo/scripts]: [public] exists next to [scripts], nothing is there
    yet, and no FreeType support is installed. *)
Definition scripts_checkout : World :=
  {| cwd := ["repo"; "scripts"];
     dirs := {[ []; ["repo"]; ["repo"; "public"]; ["repo"; "scripts"] ]};
     files := ∅;
     have_freetype := false;
     default_font := block_font;
     stdout := [] |}.

Definition shadow_path (w : World) : path :=
  os_path.resolve (cwd w) "../public/shadow.png".

(** A checkout at [/repo] with the sprite-sheet script started from
    [/repo], where [public/assets/player] exists. *)
Definition root_checkout : World :=
  {| cwd := ["repo"];
     dirs := {[ []; ["repo"]; ["repo"; "public"]; ["repo"; "public"; "assets"];
                ["repo"; "public"; "assets"; "player"] ]};
     files := ∅;
     have_freetype := false;
     default_font := block_font;
     stdout := [] |}.

(** The same checkout before [public/assets/player] was created. *)
Definition bare_checkout : World :=
  {| cwd := ["repo"];
     dirs := {[ []; ["repo"]; ["repo"; "public"] ]};
     files := ∅;
     have_freetype := false;
     default_font := block_font;
     stdout := [] |}.

Definition arial_path : path :=
  ["System"; "Library"; "Fonts"; "Supplemental"; "Arial.ttf"].

Definition sheet_path (w : World) : path :=
  cwd w ++ ["public"; "assets"; "player"; "player-walk-spritesheet.png"].

Definition sheet_dir (w : World) : path :=
  cwd w ++ ["public"; "assets"; "player"].

(** The font the label is drawn with in world [w]. *)
Definition chosen_font (w : World) : Font :=
  if have_freetype w then
    match files w !! arial_path with
    | Some (FontData face) => face 10
    | _ => default_font w
    end
  else default_font w.

(** The four drawing calls of one frame. *)
Definition body_op (row col : Z) (im : Image) : Image :=
  let cx := float_of_int (generate_spritesheet.center_x col) in
  let cy := float_of_int (generate_spritesheet.center_y row) in
  let r := generate_spritesheet.body_radius col in
  ImageDraw.ellipse im (cx - r, cy - r, cx + r, cy + r)%float
    (Some (100, 150, 200, 255)) (Some (50, 100, 150, 255)) 2.

Definition arrow_op (row col : Z) (tip : float * float) (im : Image) : Image :=
  let cx := float_of_int (generate_spritesheet.center_x col) in
  let cy := float_of_int (generate_spritesheet.center_y row) in
  ImageDraw.line im ((cx, cy), tip) (Some (255, 200, 0, 255)) 3.

Definition tip_op (tip : float * float) (im : Image) : Image :=
  ImageDraw.ellipse im (tip.1 - 3, tip.2 - 3, tip.1 + 3, tip.2 + 3)%float
    (Some (255, 200, 0, 255)) None 1.

Definition label_op (font : Font) (row col : Z) (im : Image) : Image :=
  ImageDraw.text im
    (generate_spritesheet.x col + 5, generate_spritesheet.y row + 5)
    (pretty col) (Some (255, 255, 255, 200)) font.

Definition frame_ops (font : Font) (row col : Z) (tip : float * float)
    : list (Image -> Image) :=
  [ body_op row col; arrow_op row col tip; tip_op tip; label_op font row col ].

Definition apply_ops (ops : list (Image -> Image)) (im : Image) : Image :=
  fold_left (fun im op => op im) ops im.

Definition tip_of (row col : Z) : float * float :=
  match generate_spritesheet.arrow_tip row col with
  | inr tip => tip
  | inl _ => (0, 0)%float
  end.

(** The sheet with all frames drawn, labels in [font]. *)
Definition painted_sheet (font : Font) : Image :=
  fold_left
    (fun sheet (rd : Z * string) =>
       fold_left
         (fun sheet col =>
            apply_ops (frame_ops font rd.1 col (tip_of rd.1 col)) sheet)
         (range generate_spritesheet.COLUMNS) sheet)
    (enumerate generate_spritesheet.DIRECTIONS)
    (Image.new "RGBA"
       (generate_spritesheet.SPRITE_SHEET_WIDTH,
        generate_spritesheet.SPRITE_SHEET_HEIGHT) (0, 0, 0, 0)).

(** The 96 by 96 region of frame [(row, col)]. *)
Definition frame_box (row col : Z) : ImageDraw.Box :=
  (generate_spritesheet.x col, generate_spritesheet.y row,
   generate_spritesheet.x col + generate_spritesheet.FRAME_WIDTH - 1,
   generate_spritesheet.y row + generate_spritesheet.FRAME_HEIGHT - 1).

Definition in_frame (row col px py : Z) : bool :=
  ImageDraw.in_box (frame_box row col) px py.

(** An operation that leaves every pixel outside frame [(row, col)] as it
    was. *)
Definition stays_in_frame (row col : Z) (op : Image -> Image) : Prop :=
  forall im px py,
    in_frame row col px py = false ->
    im_pixel (op im) px py = im_pixel im px py.

(** The label of column [col], rendered in [font], is no larger than the
    frame leaves room for from its position 5 pixels in. *)
Definition label_fits (font : Font) (col : Z) : Prop :=
  let bm := font (pretty col) in
  -5 <= (bm_offset bm).1 /\ (bm_offset bm).1 + (bm_extent bm).1 <= 91 /\
  -5 <= (bm_offset bm).2 /\ (bm_offset bm).2 + (bm_extent bm).2 <= 91.

(** The world once [main] has printed its four opening lines. *)
Definition announced (w : World) : World :=
  add_stdout
    ("  Layout: " +:+ pretty generate_spritesheet.COLUMNS +:+ " frames × "
     +:+ pretty generate_spritesheet.ROWS +:+ " directions")
    (add_stdout
       ("  Frame size: " +:+ pretty generate_spritesheet.FRAME_WIDTH +:+ "x"
        +:+ pretty generate_spritesheet.FRAME_HEIGHT +:+ "px")
       (add_stdout
          ("  Dimensions: " +:+ pretty generate_spritesheet.SPRITE_SHEET_WIDTH
           +:+ "x" +:+ pretty generate_spritesheet.SPRITE_SHEET_HEIGHT
           +:+ "px")
          (add_stdout "Generating player walking sprite sheet..." w))).

(** [b] lies inside [outer]. *)
Definition box_within (b outer : ImageDraw.Box) : bool :=
  let '(x0, y0, x1, y1) := b in
  let '(u0, v0, u1, v1) := outer in
  (u0 <=? x0) && (x1 <=? u1) && (v0 <=? y0) && (y1 <=? v1).

(** The pixel boxes Pillow is handed for the body, the arrow line (grown by
    its width) and the dot at the arrow tip of frame [(row, col)]. *)
Definition body_box (row col : Z) : ImageDraw.Box :=
  let cx := float_of_int (generate_spritesheet.center_x col) in
  let cy := float_of_int (generate_spritesheet.center_y row) in
  let r := generate_spritesheet.body_radius col in
  ImageDraw.int_box (cx - r, cy - r, cx + r, cy + r)%float.

Definition arrow_box (row col : Z) : ImageDraw.Box :=
  let cx := float_of_int (generate_spritesheet.center_x col) in
  let cy := float_of_int (generate_spritesheet.center_y row) in
  let tip := tip_of row col in
  ImageDraw.grow
    (ImageDraw.segment_box (c_int cx, c_int cy) (c_int tip.1, c_int tip.2)) 3.

Definition tip_box (row col : Z) : ImageDraw.Box :=
  let tip := tip_of row col in
  ImageDraw.int_box (tip.1 - 3, tip.2 - 3, tip.1 + 3, tip.2 + 3)%float.

(** The body radius of column [col] is between 22 and 28. *)
Definition radius_bounded (col : Z) : bool :=
  ((22 <=? generate_spritesheet.body_radius col)
   && (generate_spritesheet.body_radius col <=? 28))%float.

(** The arrow tip of frame [(row, col)] is at most 15 from the frame centre
    along each axis. *)
Definition tip_bounded (row col : Z) : bool :=
  let cx := float_of_int (generate_spritesheet.center_x col) in
  let cy := float_of_int (generate_spritesheet.center_y row) in
  let tip := tip_of row col in
  ((cx - 15 <=? tip.1) && (tip.1 <=? cx + 15)
   && (cy - 15 <=? tip.2) && (tip.2 <=? cy + 15))%float.

Definition geometry_ok (row col : Z) : bool :=
  radius_bounded col && tip_bounded row col
  && box_within (body_box row col) (frame_box row col)
  && box_within (arrow_box row col) (frame_box row col)
  && box_within (tip_box row col) (frame_box row col).



(** The sheet before any frame is drawn. *)
Definition blank_sheet : Image :=
  Image.new "RGBA"
    (generate_spritesheet.SPRITE_SHEET_WIDTH,
     generate_spritesheet.SPRITE_SHEET_HEIGHT) (0, 0, 0, 0).

(** Whether [word] occurs in [s]. *)
Fixpoint starts_with (word s : string) : bool :=
  match word, s with
  | EmptyString, _ => true
  | String a word', String b s' => Ascii.eqb a b && starts_with word' s'
  | String _ _, EmptyString => false
  end.

Fixpoint mentions (word s : string) : bool :=
  starts_with word s
  || match s with
     | String _ s' => mentions word s'
     | EmptyString => false
     end.

(** An arrow from [(cx, cy)] to [(ax, ay)] heads the way [name] says, in
    image coordinates (x to the right, y downwards): south is a larger y,
    east a larger x, and a name without east or west (north or south) keeps
    x (y) equal. *)
Definition heads_as_named (name : string) (cx cy ax ay : float) : bool :=
  (implb (mentions "South" name) (cy <? ay)
   && implb (mentions "North" name) (ay <? cy)
   && implb (mentions "East" name) (cx <? ax)
   && implb (mentions "West" name) (ax <? cx)
   && implb (negb (mentions "East" name || mentions "West" name)) (ax =? cx)
   && implb (negb (mentions "North" name || mentions "South" name)) (ay =? cy))%float.

(** The arrow line and the dot at its tip lie in the body's box. *)
Definition indicator_on_body (row col : Z) : bool :=
  box_within (arrow_box row col) (body_box row col)
  && box_within (tip_box row col) (body_box row col).

(** Two images of one size that hold the same pixel at [(px, py)]. *)
Definition agree_at (px py : Z) (im im' : Image) : Prop :=
  im_size im = im_size im' /\ im_pixel im px py = im_pixel im' px py.

(** A font file whose every text renders as a solid block 200 pixels wide,
    and the checkout of [root_checkout] on a machine where FreeType is
    installed and that file sits at the Arial path. *)
Definition wide_face : Z -> Font :=
  fun size _ => {| bm_offset := (0, 0); bm_extent := (200, size);
                   bm_coverage := fun _ _ => 255 |}.

Definition wide_font_checkout : World :=
  {| cwd := ["repo"];
     dirs := {[ []; ["repo"]; ["repo"; "public"]; ["repo"; "public"; "assets"];
                ["repo"; "public"; "assets"; "player"] ]};
     files := {[ ["System"; "Library"; "Fonts"; "Supplemental"; "Arial.ttf"]
                 := FontData wide_face ]};
     have_freetype := true;
     default_font := block_font;
     stdout := [] |}.

(** The checkout of [bare_checkout] with a regular file at
    [public/assets]. *)
Definition blocked_checkout : World :=
  {| cwd := ["repo"];
     dirs := {[ []; ["repo"]; ["repo"; "public"] ]};
     files := {[ ["repo"; "public"; "assets"] := OtherData [] ]};
     have_freetype := false;
     default_font := block_font;
     stdout := [] |}.

Import generate_spritesheet.

(** * Properties *)

(** C3: the direction table has exactly eight rows, indexed 0 to 7, and row
    by row the name and the looked-up angle are South 90, South-East 45,
    East 0, North-East 315, North 270, North-West 225, West 180 and
    South-West 135; the angle table itself has eight keys. *)
Theorem direction_table_fixed :
  length DIRECTIONS = 8%nat /\
  size angle_map = 8%nat /\
  (fun '(row, name) => (row, name, angle_map !! row)) <$> enumerate DIRECTIONS =
    [ (0, "South", Some 90); (1, "South-East", Some 45);
      (2, "East", Some 0); (3, "North-East", Some 315);
      (4, "North", Some 270); (5, "North-West", Some 225);
      (6, "West", Some 180); (7, "South-West", Some 135) ].
Proof. repeat split; vm_compute; reflexivity. Qed.

Lemma column_cases (col : Z) :
  0 <= col < COLUMNS ->
  col = 0 \/ col = 1 \/ col = 2 \/ col = 3 \/ col = 4 \/ col = 5.
Proof. unfold COLUMNS. lia. Qed.

Lemma row_cases (row : Z) :
  0 <= row < ROWS ->
  row = 0 \/ row = 1 \/ row = 2 \/ row = 3 \/
  row = 4 \/ row = 5 \/ row = 6 \/ row = 7.
Proof. unfold ROWS. lia. Qed.

Ltac each_column H :=
  apply column_cases in H;
  repeat (destruct H as [H | H]); subst.

Ltac each_row H :=
  apply row_cases in H;
  repeat (destruct H as [H | H]); subst.

(** The series reproduces the C library at the arguments that matter most
    below: the sine of the binary64 number nearest pi and the cosine of the
    one nearest 3*pi/2 are tiny but not zero. *)
Example sin_at_pi :
  math.sin (float_of_int 3 / float_of_int COLUMNS * math.pi * 2)
  = 0x1.1a62633145c07p-53%float.
Proof. vm_compute. reflexivity. Qed.

Example cos_at_270_degrees :
  math.cos (angle_rad 270) = (-0x1.a79394c9e8a0ap-53)%float.
Proof. vm_compute. reflexivity. Qed.

Example sin_at_270_degrees : math.sin (angle_rad 270) = (-1)%float.
Proof. vm_compute. reflexivity. Qed.

(** C4: in row 2 (East) the arrow endpoint is exactly
    [(center_x + 15, center_y)] and in row 4 (North) exactly
    [(center_x, center_y - 15)], for every column of the sheet. *)
Theorem arrow_tip_east_north (col : Z) :
  0 <= col < COLUMNS ->
  arrow_tip 2 col =
    Ok (float_of_int (center_x col + 15), float_of_int (center_y 2)) /\
  arrow_tip 4 col =
    Ok (float_of_int (center_x col), float_of_int (center_y 4 - 15)).
Proof. intros H. each_column H; split; vm_compute; reflexivity. Qed.

Lemma arrow_tip_east_north_witness :
  arrow_tip 2 3 =
    Ok (float_of_int (center_x 3 + 15), float_of_int (center_y 2)) /\
  arrow_tip 4 3 =
    Ok (float_of_int (center_x 3), float_of_int (center_y 4 - 15)).
Proof. apply (arrow_tip_east_north 3). unfold COLUMNS. lia. Defined.

(** C5: the body radius of column 0 equals the body radius of column 3, and
    both are exactly 25; the radius does not depend on the row. *)
Theorem body_radius_half_cycle :
  body_radius 0 = body_radius 3 /\
  body_radius 0 = 25%float /\ body_radius 3 = 25%float.
Proof. repeat split; vm_compute; reflexivity. Qed.

(** C10: for every row index that iterating over [DIRECTIONS] produces, the
    lookup [angle_map[row]] finds its key and returns an angle. *)
Theorem angle_lookup_total :
  Forall (fun rd : Z * string => exists deg, angle_deg rd.1 = Ok deg)
         (enumerate DIRECTIONS).
Proof.
  unfold enumerate, DIRECTIONS; simpl.
  repeat constructor; eexists; vm_compute; reflexivity.
Qed.

(** ** The shadow generator *)


Lemma inside_ellipse_in_box (b : ImageDraw.Box) (px py : Z) :
  ImageDraw.in_box b px py = false ->
  ImageDraw.inside_ellipse b px py = false.
Proof.
  intros H. destruct b as [[[x0 y0] x1] y1].
  unfold ImageDraw.inside_ellipse, ImageDraw.ellipse_mask.
  rewrite H. reflexivity.
Qed.


(** The top row of the shadow, row 55, is painted from x = 41 to x = 55. *)
Example shadow_top_row :
  filter (fun px => ImageDraw.inside_ellipse (20, 55, 76, 85) px 55)
         (range 96)
  = [41; 42; 43; 44; 45; 46; 47; 48; 49; 50; 51; 52; 53; 54; 55].
Proof. vm_compute. reflexivity. Qed.

(** A text mask value of 139 over an opaque pixel mixes every band with the
    ink; over a transparent pixel the colour bands are the ink's. *)
Example text_over_opaque_and_transparent :
  let font : Font :=
    fun _ => {| bm_offset := (0, 0); bm_extent := (6, 11);
                bm_coverage := fun _ _ => 139 |} in
  im_pixel (ImageDraw.text (Image.new "RGBA" (96, 96) (100, 150, 200, 255))
              (5, 5) "0" (Some (255, 255, 255, 200)) font) 6 6
    = (184, 207, 230, 225) /\
  im_pixel (ImageDraw.text (Image.new "RGBA" (96, 96) (0, 0, 0, 0))
              (5, 5) "0" (Some (255, 255, 255, 200)) font) 6 6
    = (255, 255, 255, 109).
Proof. split; vm_compute; reflexivity. Qed.



(** ** Path names and the file system *)

Lemma resolve_shadow_path (from : path) :
  os_path.resolve from "../public/shadow.png"
  = removelast from ++ ["public"; "shadow.png"].
Proof.
  unfold os_path.resolve.
  change (os_path.components "../public/shadow.png")
    with [".."; "public"; "shadow.png"].
  change (os_path.isabs "../public/shadow.png") with false.
  cbn [fold_left].
  change (os_path.step from "..") with (removelast from).
  change (os_path.step (removelast from) "public")
    with (removelast from ++ ["public"]).
  change (os_path.step (removelast from ++ ["public"]) "shadow.png")
    with ((removelast from ++ ["public"]) ++ ["shadow.png"]).
  rewrite <- app_assoc. reflexivity.
Qed.

Lemma save_writes (im : Image) (name : string) (w : World) :
  os_path.resolve (cwd w) name ∉ dirs w ->
  removelast (os_path.resolve (cwd w) name) ∈ dirs w ->
  Image.save im name w =
    (Ok tt,
     set_files (<[os_path.resolve (cwd w) name := PngData im]> (files w)) w).
Proof.
  intros Hfile Hdir. unfold Image.save.
  rewrite bool_decide_eq_false_2 by assumption.
  rewrite bool_decide_eq_true_2 by assumption.
  reflexivity.
Qed.

Lemma save_fails (im : Image) (name : string) (w : World) :
  removelast (os_path.resolve (cwd w) name) ∉ dirs w ->
  exists e, Image.save im name w = (Err e, w).
Proof.
  intros Hdir. unfold Image.save.
  destruct (bool_decide _); [eauto|].
  rewrite (bool_decide_eq_false_2 _ Hdir). eauto.
Qed.

(** C1, as stated, fails: started from [/repo/scripts] the script succeeds,
    leaves nothing at [public/shadow.png] under the invocation directory,
    and the image is at [../public/shadow.png]. *)
Lemma shadow_not_under_invocation_directory :
  (generate_shadow.script scripts_checkout).1 = Ok tt /\
  files (generate_shadow.script scripts_checkout).2
    !! os_path.resolve (cwd scripts_checkout) "public/shadow.png" = None /\
  files (generate_shadow.script scripts_checkout).2
    !! os_path.resolve (cwd scripts_checkout) "../public/shadow.png"
    = Some (PngData generate_shadow.image).
Proof.
  assert (Hrun : generate_shadow.script scripts_checkout =
    (Ok tt,
     add_stdout "Shadow sprite generated: public/shadow.png"
       (set_files (<[shadow_path scripts_checkout :=
                       PngData generate_shadow.image]> ∅)
          scripts_checkout))).
  { unfold generate_shadow.script, mbind, M_bind, bind.
    rewrite save_writes; [reflexivity | |]; vm_compute; intuition congruence. }
  rewrite Hrun. split; [reflexivity|]. cbn [snd files add_stdout set_files].
  split.
  - apply lookup_insert_None. split; [apply lookup_empty|].
    vm_compute. congruence.
  - apply lookup_insert_eq.
Qed.

(** C1, amended: when [public] exists beside the invocation directory (and
    no directory is in the way), the script writes the shadow image to
    [../public/shadow.png], that is [public/shadow.png] under the parent of
    the invocation directory, whatever was there before, and touches no
    other file. *)
Theorem shadow_written_beside_invocation_directory (w : World) :
  removelast (cwd w) ++ ["public"] ∈ dirs w ->
  removelast (cwd w) ++ ["public"; "shadow.png"] ∉ dirs w ->
  shadow_path w = removelast (cwd w) ++ ["public"; "shadow.png"] /\
  exists w',
    generate_shadow.script w = (Ok tt, w') /\
    cwd w' = cwd w /\
    files w' !! shadow_path w = Some (PngData generate_shadow.image) /\
    forall p, p <> shadow_path w -> files w' !! p = files w !! p.
Proof.
  intros Hdir Hfile.
  assert (Hp : shadow_path w = removelast (cwd w) ++ ["public"; "shadow.png"])
    by apply resolve_shadow_path.
  split; [exact Hp|].
  eexists. split.
  - unfold generate_shadow.script, mbind, M_bind, bind.
    rewrite save_writes; [reflexivity | |];
      fold (shadow_path w); rewrite Hp; [assumption|].
    rewrite removelast_app by discriminate. exact Hdir.
  - cbn [files cwd add_stdout set_files]. fold (shadow_path w).
    split; [reflexivity|]. split; [apply lookup_insert_eq|].
    intros p Hne. apply lookup_insert_ne. congruence.
Qed.

Lemma shadow_written_beside_invocation_directory_witness :
  shadow_path scripts_checkout = ["repo"; "public"; "shadow.png"] /\
  exists w',
    generate_shadow.script scripts_checkout = (Ok tt, w') /\
    cwd w' = cwd scripts_checkout /\
    files w' !! shadow_path scripts_checkout
      = Some (PngData generate_shadow.image) /\
    forall p, p <> shadow_path scripts_checkout ->
              files w' !! p = files scripts_checkout !! p.
Proof.
  apply (shadow_written_beside_invocation_directory scripts_checkout);
    vm_compute; intuition congruence.
Defined.

(** ** Running the sprite-sheet generator *)

Lemma resolve_arial (from : path) :
  os_path.resolve from "/System/Library/Fonts/Supplemental/Arial.ttf"
  = arial_path.
Proof. vm_compute. reflexivity. Qed.

Lemma resolve_output_path (from : path) :
  os_path.resolve from output_path
  = from ++ ["public"; "assets"; "player"; "player-walk-spritesheet.png"].
Proof.
  unfold os_path.resolve.
  change (os_path.components output_path)
    with ["public"; "assets"; "player"; "player-walk-spritesheet.png"].
  change (os_path.isabs output_path) with false.
  cbn [fold_left].
  change (os_path.step from "public") with (from ++ ["public"]).
  change (os_path.step (from ++ ["public"]) "assets")
    with ((from ++ ["public"]) ++ ["assets"]).
  change (os_path.step ((from ++ ["public"]) ++ ["assets"]) "player")
    with (((from ++ ["public"]) ++ ["assets"]) ++ ["player"]).
  change (os_path.step (((from ++ ["public"]) ++ ["assets"]) ++ ["player"])
            "player-walk-spritesheet.png")
    with ((((from ++ ["public"]) ++ ["assets"]) ++ ["player"])
            ++ ["player-walk-spritesheet.png"]).
  rewrite <- !app_assoc. reflexivity.
Qed.

Lemma sheet_path_parent (w : World) : removelast (sheet_path w) = sheet_dir w.
Proof. unfold sheet_path. rewrite removelast_app by discriminate. reflexivity. Qed.

Lemma label_font_run (w : World) : label_font w = (Ok (chosen_font w), w).
Proof.
  unfold label_font, try_except, ImageFont.truetype, ImageFont.load_default,
    chosen_font.
  rewrite resolve_arial.
  destruct (have_freetype w); [|reflexivity].
  destruct (files w !! arial_path) as [[]|]; reflexivity.
Qed.

Lemma angle_deg_rows (row : Z) :
  0 <= row < ROWS -> exists deg, angle_deg row = Ok deg.
Proof. intros H. each_row H; eexists; vm_compute; reflexivity. Qed.

Lemma arrow_tip_rows (row col : Z) :
  0 <= row < ROWS -> arrow_tip row col = Ok (tip_of row col).
Proof.
  intros H. destruct (angle_deg_rows row H) as [deg Hdeg].
  unfold tip_of, arrow_tip. rewrite Hdeg. reflexivity.
Qed.

Lemma draw_frame_run (row col : Z) (sheet : Image) (w : World) :
  0 <= row < ROWS ->
  draw_frame row col sheet w =
    (Ok (apply_ops (frame_ops (chosen_font w) row col (tip_of row col)) sheet),
     w).
Proof.
  intros H. unfold draw_frame, mbind, M_bind, bind, lift. cbv zeta beta.
  rewrite (arrow_tip_rows row col H), label_font_run. reflexivity.
Qed.

Lemma for_each_pure {A S} (l : list A) (body : S -> A -> M S)
    (step : S -> A -> S) (w : World) :
  (forall a s, a ∈ l -> body s a w = (Ok (step s a), w)) ->
  forall s, for_each l body s w = (Ok (fold_left step l s), w).
Proof.
  induction l as [|a l IH]; intros Hbody s; [reflexivity|].
  cbn [for_each fold_left]. unfold mbind, M_bind, bind.
  rewrite Hbody by constructor.
  apply IH. intros a' s' Hin. apply Hbody. now constructor.
Qed.

Lemma enumerate_rows (rd : Z * string) :
  rd ∈ enumerate DIRECTIONS -> 0 <= rd.1 < ROWS.
Proof.
  unfold enumerate, DIRECTIONS, ROWS. cbn [imap].
  rewrite !elem_of_cons, elem_of_nil.
  intros H; repeat (destruct H as [-> | H]; [simpl; lia|]); contradiction.
Qed.

Lemma create_sprite_sheet_run (w : World) :
  create_sprite_sheet w = (Ok (painted_sheet (chosen_font w)), w).
Proof.
  unfold create_sprite_sheet, painted_sheet. cbv zeta.
  apply for_each_pure with
    (step := fun sheet (rd : Z * string) =>
       fold_left
         (fun sheet col =>
            apply_ops (frame_ops (chosen_font w) rd.1 col (tip_of rd.1 col))
              sheet)
         (range COLUMNS) sheet).
  intros [row direction] sheet Hin.
  apply for_each_pure with
    (step := fun sheet col =>
       apply_ops (frame_ops (chosen_font w) row col (tip_of row col)) sheet).
  intros col sheet' _. apply draw_frame_run.
  exact (enumerate_rows _ Hin).
Qed.

(** The painted sheet at a few pixels of the first frame: the arrow runs
    through the centre, the body's outline is crossed at its left rim, the
    label starts 5 pixels in, and the frame's corner stays transparent. *)
Example painted_sheet_samples :
  im_size (painted_sheet block_font) = (576, 768) /\
  (fun p : Z * Z => getpixel (painted_sheet block_font) p.1 p.2)
    <$> [ (48, 48); (23, 48); (5, 5); (0, 0) ]
  = [ Some (255, 200, 0, 255); Some (50, 100, 150, 255);
      Some (255, 255, 255, 200); Some (0, 0, 0, 0) ].
Proof. split; vm_compute; reflexivity. Qed.

Lemma main_until_save (w : World) :
  main w =
    match Image.save (painted_sheet (chosen_font w)) output_path (announced w)
    with
    | (inr _, w1) =>
        (print ("✓ Sprite sheet saved to: " +:+ output_path) ;;
         print ("  File size: ("
                +:+ pretty (im_size (painted_sheet (chosen_font w))).1 +:+ ", "
                +:+ pretty (im_size (painted_sheet (chosen_font w))).2 +:+ ")") ;;
         test_img ← Image.open output_path;
         print ("✓ Verified: " +:+ pretty (im_size test_img).1 +:+ "x"
                +:+ pretty (im_size test_img).2 +:+ "px, mode="
                +:+ im_mode test_img)) w1
    | (inl e, w1) => (Err e, w1)
    end.
Proof.
  unfold main, mbind, M_bind, bind, print. cbv beta iota.
  rewrite create_sprite_sheet_run. reflexivity.
Qed.

Lemma main_save_error (w wf : World) (e : exn) :
  Image.save (painted_sheet (chosen_font w)) output_path (announced w)
    = (Err e, wf) ->
  main w = (Err e, wf).
Proof. intros H. rewrite main_until_save, H. reflexivity. Qed.

Lemma main_stops (w : World) :
  sheet_dir w ∉ dirs w ->
  exists e, main w = (Err e, announced w).
Proof.
  intros Hdir.
  destruct (save_fails (painted_sheet (chosen_font w)) output_path (announced w))
    as [e He].
  - cbn [cwd dirs announced add_stdout].
    rewrite resolve_output_path. fold (sheet_path w).
    rewrite sheet_path_parent. exact Hdir.
  - exists e. apply main_save_error, He.
Qed.

(** ** Where the drawing calls paint *)

Lemma in_box_true (b : ImageDraw.Box) (px py : Z) :
  ImageDraw.in_box b px py = true <->
  b.1.1.1 <= px <= b.1.2 /\ b.1.1.2 <= py <= b.2.
Proof.
  destruct b as [[[x0 y0] x1] y1]. unfold ImageDraw.in_box. simpl.
  rewrite !andb_true_iff, !Z.leb_le. lia.
Qed.

Lemma in_box_within (b outer : ImageDraw.Box) (px py : Z) :
  box_within b outer = true ->
  ImageDraw.in_box outer px py = false ->
  ImageDraw.in_box b px py = false.
Proof.
  intros Hw Hout. apply not_true_is_false. intros Hin.
  apply not_true_iff_false in Hout. apply Hout.
  apply in_box_true. apply in_box_true in Hin.
  destruct b as [[[x0 y0] x1] y1], outer as [[[u0 v0] u1] v1].
  unfold box_within in Hw. rewrite !andb_true_iff, !Z.leb_le in Hw.
  simpl in *. lia.
Qed.

Lemma paint_outside (mask : Z -> Z -> bool) (ink : RGBA) (im : Image)
    (px py : Z) :
  mask px py = false ->
  im_pixel (ImageDraw.paint mask ink im) px py = im_pixel im px py.
Proof.
  intros H. unfold ImageDraw.paint. simpl.
  rewrite H, andb_false_r. reflexivity.
Qed.

Lemma ellipse_outside (im : Image) (xy : float * float * float * float)
    (fill outline : option RGBA) (width px py : Z) :
  ImageDraw.in_box (ImageDraw.int_box xy) px py = false ->
  im_pixel (ImageDraw.ellipse im xy fill outline width) px py
  = im_pixel im px py.
Proof.
  intros H.
  assert (Hring : ImageDraw.ellipse_outline (ImageDraw.int_box xy) width px py
                  = false).
  { destruct (ImageDraw.int_box xy) as [[[x0 y0] x1] y1].
    unfold ImageDraw.ellipse_outline, ImageDraw.ellipse_mask.
    rewrite H. reflexivity. }
  apply inside_ellipse_in_box in H.
  unfold ImageDraw.ellipse.
  destruct (ImageDraw.getink outline fill) as [[c|] [f|]];
    repeat first [ rewrite paint_outside by assumption
                 | destruct (bool_decide _) ];
    reflexivity.
Qed.

Lemma on_line_in_box (p0 p1 : Z * Z) (width px py : Z) :
  0 <= width ->
  ImageDraw.in_box (ImageDraw.grow (ImageDraw.segment_box p0 p1) width) px py
    = false ->
  ImageDraw.on_line p0 p1 width px py = false.
Proof.
  intros Hw Hout. unfold ImageDraw.on_line.
  destruct ((p1.1 - p0.1 =? 0) && (p1.2 - p0.2 =? 0)) eqn:Hdeg.
  - apply not_true_is_false. intros Hpt.
    apply not_true_iff_false in Hout. apply Hout.
    apply in_box_true.
    rewrite andb_true_iff, !Z.eqb_eq in Hdeg, Hpt.
    destruct p0 as [x0 y0], p1 as [x1 y1].
    unfold ImageDraw.grow, ImageDraw.segment_box. simpl in *. lia.
  - rewrite Hout. reflexivity.
Qed.

Lemma line_outside (im : Image) (xy : (float * float) * (float * float))
    (fill : option RGBA) (width px py : Z) :
  ImageDraw.in_box
    (ImageDraw.grow
       (ImageDraw.segment_box (c_int xy.1.1, c_int xy.1.2)
          (c_int xy.2.1, c_int xy.2.2))
       (Z.max width 1)) px py = false ->
  im_pixel (ImageDraw.line im xy fill width) px py = im_pixel im px py.
Proof.
  intros H. unfold ImageDraw.line.
  apply paint_outside, on_line_in_box; [lia | exact H].
Qed.

Lemma text_outside (im : Image) (xy : Z * Z) (label : string)
    (fill : option RGBA) (font : Font) (px py : Z) :
  ImageDraw.in_box
    (xy.1 + (bm_offset (font label)).1, xy.2 + (bm_offset (font label)).2,
     xy.1 + (bm_offset (font label)).1 + (bm_extent (font label)).1 - 1,
     xy.2 + (bm_offset (font label)).2 + (bm_extent (font label)).2 - 1)
    px py = false ->
  im_pixel (ImageDraw.text im xy label fill font) px py = im_pixel im px py.
Proof.
  intros H. unfold ImageDraw.text. cbn [im_pixel].
  rewrite H, andb_false_r. reflexivity.
Qed.

Lemma geometry_ok_everywhere (row col : Z) :
  0 <= row < ROWS -> 0 <= col < COLUMNS -> geometry_ok row col = true.
Proof.
  intros Hr Hc. each_row Hr; each_column Hc; vm_compute; reflexivity.
Qed.

(** ** The claims about running the scripts *)

(** C7: when the lookup of the system font fails, for whatever reason, the
    label font is the built-in default and no error results; drawing a frame
    of any row of the sheet then returns normally.  Nothing else is
    recovered from: an error of the save step is the result of either
    script. *)
Theorem font_lookup_falls_back (w w' : World) (e : exn) :
  ImageFont.truetype "/System/Library/Fonts/Supplemental/Arial.ttf" 10 w
    = (Err e, w') ->
  label_font w = (Ok (default_font w), w) /\
  (forall row col sheet,
     0 <= row < ROWS ->
     exists sheet', draw_frame row col sheet w = (Ok sheet', w)) /\
  (forall e' wf,
     Image.save (painted_sheet (chosen_font w)) output_path (announced w)
       = (Err e', wf) ->
     main w = (Err e', wf)) /\
  (forall e' wf,
     Image.save generate_shadow.image "../public/shadow.png" w = (Err e', wf) ->
     generate_shadow.script w = (Err e', wf)).
Proof.
  intros Hfail. repeat split.
  - rewrite label_font_run. do 2 f_equal.
    unfold ImageFont.truetype in Hfail. rewrite resolve_arial in Hfail.
    unfold chosen_font.
    destruct (have_freetype w); [|reflexivity].
    destruct (files w !! arial_path) as [[]|]; try reflexivity.
    discriminate.
  - intros row col sheet Hrow. eexists. apply draw_frame_run, Hrow.
  - intros e' wf. apply main_save_error.
  - intros e' wf Hsave.
    unfold generate_shadow.script, mbind, M_bind, bind.
    rewrite Hsave. reflexivity.
Qed.

Lemma font_lookup_falls_back_witness :
  label_font root_checkout = (Ok (default_font root_checkout), root_checkout) /\
  (forall row col sheet,
     0 <= row < ROWS ->
     exists sheet', draw_frame row col sheet root_checkout
                    = (Ok sheet', root_checkout)) /\
  (forall e' wf,
     Image.save (painted_sheet (chosen_font root_checkout)) output_path
       (announced root_checkout) = (Err e', wf) ->
     main root_checkout = (Err e', wf)) /\
  (forall e' wf,
     Image.save generate_shadow.image "../public/shadow.png" root_checkout
       = (Err e', wf) ->
     generate_shadow.script root_checkout = (Err e', wf)).
Proof.
  apply (font_lookup_falls_back root_checkout root_checkout
           (ImportError "The _imagingft C module is not installed")).
  reflexivity.
Defined.

(** C8: when [public/assets/player] does not exist under the invocation
    directory, [main] ends in an error, and it has created neither the
    directory nor any file. *)
Theorem save_needs_the_directory (w : World) :
  cwd w ++ ["public"; "assets"; "player"] ∉ dirs w ->
  exists e w',
    main w = (Err e, w') /\ dirs w' = dirs w /\ files w' = files w.
Proof.
  intros Hdir. destruct (main_stops w Hdir) as [e He].
  exists e, (announced w). repeat split; assumption.
Qed.

Lemma save_needs_the_directory_witness :
  exists e w',
    main bare_checkout = (Err e, w') /\
    dirs w' = dirs bare_checkout /\ files w' = files bare_checkout.
Proof.
  apply (save_needs_the_directory bare_checkout).
  vm_compute. intuition congruence.
Defined.

(** C9, as stated, fails: the label is drawn in whatever font the lookup
    finds.  With a font at the Arial path whose masks are 200 pixels wide,
    drawing frame (0, 0) on the blank sheet paints pixel (150, 8), which
    lies in the frame to its right. *)
Lemma wide_label_leaves_frame :
  in_frame 0 0 150 8 = false /\
  in_frame 0 1 150 8 = true /\
  im_pixel blank_sheet 150 8 = (0, 0, 0, 0) /\
  exists sheet,
    draw_frame 0 0 blank_sheet wide_font_checkout
      = (Ok sheet, wide_font_checkout) /\
    im_pixel sheet 150 8 = (255, 255, 255, 200).
Proof.
  split; [reflexivity|]. split; [reflexivity|]. split; [reflexivity|].
  eexists. split.
  - apply draw_frame_run. unfold ROWS. lia.
  - vm_compute. reflexivity.
Qed.

(** C9, amended: in every frame of the sheet the body radius is between 22
    and 28 and the arrow tip is within 15 of the frame centre along each
    axis; the body, the arrow line and the tip dot leave every pixel
    outside the frame's 96 by 96 region unchanged, in every world; the
    label at offset (5, 5) does so when the mask its font renders for the
    column digit fits the room left in the frame (at most 91 pixels right
    of and below the drawing position, at most 5 left of and above it).
    Drawing the frame is exactly those four calls. *)
Theorem frame_drawing_stays_in_frame (w : World) (row col : Z) :
  0 <= row < ROWS ->
  0 <= col < COLUMNS ->
  radius_bounded col = true /\
  tip_bounded row col = true /\
  Forall (stays_in_frame row col)
         [ body_op row col; arrow_op row col (tip_of row col);
           tip_op (tip_of row col) ] /\
  (label_fits (chosen_font w) col ->
   stays_in_frame row col (label_op (chosen_font w) row col)) /\
  forall sheet,
    draw_frame row col sheet w =
      (Ok (apply_ops (frame_ops (chosen_font w) row col (tip_of row col))
             sheet), w).
Proof.
  intros Hrow Hcol.
  pose proof (geometry_ok_everywhere row col Hrow Hcol) as Hgeo.
  unfold geometry_ok in Hgeo. rewrite !andb_true_iff in Hgeo.
  destruct Hgeo as [[[[Hrad Htip] Hbody] Harrow] Hdot].
  split; [exact Hrad|]. split; [exact Htip|].
  split; [|split; [|intros sheet; apply draw_frame_run, Hrow]].
  - repeat constructor; intros im px py Hout.
    + apply ellipse_outside. exact (in_box_within _ _ _ _ Hbody Hout).
    + apply line_outside. exact (in_box_within _ _ _ _ Harrow Hout).
    + apply ellipse_outside. exact (in_box_within _ _ _ _ Hdot Hout).
  - intros Hfit im px py Hout.
    apply text_outside. apply not_true_is_false. intros Hin.
    apply not_true_iff_false in Hout. apply Hout.
    apply in_box_true. apply in_box_true in Hin.
    unfold label_fits in Hfit.
    unfold frame_box, x, y, FRAME_WIDTH, FRAME_HEIGHT in *.
    cbn [fst snd] in *. lia.
Qed.

Lemma frame_drawing_stays_in_frame_witness :
  radius_bounded 4 = true /\
  tip_bounded 3 4 = true /\
  Forall (stays_in_frame 3 4)
         [ body_op 3 4; arrow_op 3 4 (tip_of 3 4); tip_op (tip_of 3 4) ] /\
  (label_fits (chosen_font root_checkout) 4 ->
   stays_in_frame 3 4 (label_op (chosen_font root_checkout) 3 4)) /\
  forall sheet,
    draw_frame 3 4 sheet root_checkout =
      (Ok (apply_ops (frame_ops (chosen_font root_checkout) 3 4 (tip_of 3 4))
             sheet), root_checkout).
Proof.
  apply (frame_drawing_stays_in_frame root_checkout 3 4).
  - unfold ROWS. lia.
  - unfold COLUMNS. lia.
Defined.


(** * Further properties of the two scripts *)

(** ** Drawing keeps the canvas *)

Lemma paint_shape (mask : Z -> Z -> bool) (ink : RGBA) (im : Image) :
  im_size (ImageDraw.paint mask ink im) = im_size im /\
  im_mode (ImageDraw.paint mask ink im) = im_mode im.
Proof. split; reflexivity. Qed.

Lemma ellipse_shape (im : Image) (xy : float * float * float * float)
    (fill outline : option RGBA) (width : Z) :
  im_size (ImageDraw.ellipse im xy fill outline width) = im_size im /\
  im_mode (ImageDraw.ellipse im xy fill outline width) = im_mode im.
Proof.
  unfold ImageDraw.ellipse.
  destruct (ImageDraw.getink outline fill) as [[c|] [f|]];
    try destruct (bool_decide _); split; reflexivity.
Qed.

Lemma line_shape (im : Image) (xy : (float * float) * (float * float))
    (fill : option RGBA) (width : Z) :
  im_size (ImageDraw.line im xy fill width) = im_size im /\
  im_mode (ImageDraw.line im xy fill width) = im_mode im.
Proof. split; reflexivity. Qed.

Lemma text_shape (im : Image) (xy : Z * Z) (label : string)
    (fill : option RGBA) (font : Font) :
  im_size (ImageDraw.text im xy label fill font) = im_size im /\
  im_mode (ImageDraw.text im xy label fill font) = im_mode im.
Proof. split; reflexivity. Qed.

Lemma frame_shape (font : Font) (row col : Z) (tip : float * float)
    (im : Image) :
  im_size (apply_ops (frame_ops font row col tip) im) = im_size im /\
  im_mode (apply_ops (frame_ops font row col tip) im) = im_mode im.
Proof.
  unfold apply_ops, frame_ops, body_op, arrow_op, tip_op, label_op.
  cbn [fold_left].
  split.
  - rewrite (proj1 (text_shape _ _ _ _ _)), (proj1 (ellipse_shape _ _ _ _ _)),
      (proj1 (line_shape _ _ _ _)), (proj1 (ellipse_shape _ _ _ _ _)).
    reflexivity.
  - rewrite (proj2 (text_shape _ _ _ _ _)), (proj2 (ellipse_shape _ _ _ _ _)),
      (proj2 (line_shape _ _ _ _)), (proj2 (ellipse_shape _ _ _ _ _)).
    reflexivity.
Qed.

Lemma fold_left_keeps {A S} (f : S -> A -> S) (P : S -> Prop) (l : list A) :
  (forall s a, a ∈ l -> P s -> P (f s a)) ->
  forall s, P s -> P (fold_left f l s).
Proof.
  induction l as [|a l IH]; intros Hstep s Hs; [exact Hs|].
  cbn [fold_left]. apply IH.
  - intros s' a' Hin. apply Hstep. now constructor.
  - apply Hstep; [constructor | exact Hs].
Qed.

Lemma painted_sheet_shape (font : Font) :
  im_size (painted_sheet font) = (576, 768) /\
  im_mode (painted_sheet font) = "RGBA".
Proof.
  unfold painted_sheet.
  apply (fold_left_keeps _
           (fun im => im_size im = (576, 768) /\ im_mode im = "RGBA")).
  - intros sheet rd _.
    apply (fold_left_keeps _
             (fun im => im_size im = (576, 768) /\ im_mode im = "RGBA")).
    intros sheet' col _ [Hsize Hmode].
    destruct (frame_shape font rd.1 col (tip_of rd.1 col) sheet') as [H1 H2].
    split; [rewrite H1 | rewrite H2]; assumption.
  - split; reflexivity.
Qed.

(** X1: whatever the world (fonts, files, directories), building the sheet
    returns normally with a 576 by 768 RGBA image and leaves the world as it
    was: nothing is read or written beyond the font lookup. *)
Theorem create_sprite_sheet_returns_full_sheet (w : World) :
  exists sheet,
    create_sprite_sheet w = (Ok sheet, w) /\
    im_size sheet = (SPRITE_SHEET_WIDTH, SPRITE_SHEET_HEIGHT) /\
    im_size sheet = (576, 768) /\
    im_mode sheet = "RGBA".
Proof.
  exists (painted_sheet (chosen_font w)).
  destruct (painted_sheet_shape (chosen_font w)) as [Hsize Hmode].
  split; [apply create_sprite_sheet_run|].
  split; [exact Hsize|]. split; [exact Hsize | exact Hmode].
Qed.

(** ** What the scripts leave behind *)




Lemma lookup_error_named (w : World) (target from : path) (c c' : string)
    (rest : list string) :
  c <> "" -> c <> "." -> c <> ".." ->
  Image.lookup_error w target from (c :: c' :: rest) =
    if bool_decide (from ++ [c] ∈ dirs w)
    then Image.lookup_error w target (from ++ [c]) (c' :: rest)
    else if bool_decide (is_Some (files w !! (from ++ [c])))
         then Some (NotADirectoryError target)
         else Some (FileNotFoundError target).
Proof.
  intros H1 H2 H3. cbn [Image.lookup_error]. unfold os_path.step.
  rewrite (bool_decide_eq_false_2 (c = "" \/ c = "." \/ c = ".."))
    by (intros [? | [? | ?]]; congruence).
  rewrite (bool_decide_eq_false_2 (c = "" \/ c = "."))
    by (intros [? | ?]; congruence).
  rewrite (bool_decide_eq_false_2 (c = "..")) by congruence.
  reflexivity.
Qed.





(** With a regular file at [public/assets], saving stops with
    [NotADirectoryError]. *)
Example main_blocked_by_a_file :
  main blocked_checkout
  = (Err (NotADirectoryError (sheet_path blocked_checkout)),
     announced blocked_checkout).
Proof. apply main_save_error. vm_compute. reflexivity. Qed.


(** X4: when there is no [public] directory beside the invocation directory
    (and nothing else sits at these names), the shadow script stops with
    [FileNotFoundError] before it prints anything: the world is exactly as
    it was. *)
Theorem shadow_script_needs_public (w : World) :
  removelast (cwd w) ++ ["public"] ∉ dirs w ->
  files w !! (removelast (cwd w) ++ ["public"]) = None ->
  shadow_path w ∉ dirs w ->
  generate_shadow.script w = (Err (FileNotFoundError (shadow_path w)), w).
Proof.
  intros Hdir Hnofile Hpath.
  assert (Hparent : removelast (shadow_path w) = removelast (cwd w) ++ ["public"]).
  { unfold shadow_path. rewrite resolve_shadow_path.
    rewrite removelast_app by discriminate. reflexivity. }
  assert (Herr : Image.missing_error w "../public/shadow.png"
                 = FileNotFoundError (shadow_path w)).
  { unfold Image.missing_error. fold (shadow_path w).
    change (os_path.components "../public/shadow.png")
      with [".."; "public"; "shadow.png"].
    change (os_path.isabs "../public/shadow.png") with false. cbv iota.
    change (Image.lookup_error w (shadow_path w) (cwd w)
              [".."; "public"; "shadow.png"])
      with (Image.lookup_error w (shadow_path w) (removelast (cwd w))
              ["public"; "shadow.png"]).
    rewrite lookup_error_named by discriminate.
    rewrite (bool_decide_eq_false_2 _ Hdir), Hnofile.
    rewrite (bool_decide_eq_false_2 (is_Some None))
      by (intros [? ?]; discriminate).
    reflexivity. }
  unfold generate_shadow.script, mbind, M_bind, bind, Image.save.
  fold (shadow_path w). rewrite Hparent.
  rewrite (bool_decide_eq_false_2 _ Hpath), (bool_decide_eq_false_2 _ Hdir).
  rewrite Herr. reflexivity.
Qed.

Lemma shadow_script_needs_public_witness :
  generate_shadow.script root_checkout
  = (Err (FileNotFoundError (shadow_path root_checkout)), root_checkout).
Proof.
  apply (shadow_script_needs_public root_checkout);
    vm_compute; intuition congruence.
Defined.

(** ** The layout of the sheet *)

(** X5: the 48 frames tile the sheet: a pixel of the 576 by 768 sheet lies
    in the frame of row [py / 96] and column [px / 96], which are a row and
    a column of the grid, and in no other frame; and every frame of the
    grid lies inside the sheet. *)
Theorem frames_tile_the_sheet (px py : Z) :
  (in_bounds blank_sheet px py = true ->
   0 <= py `div` FRAME_HEIGHT < ROWS /\
   0 <= px `div` FRAME_WIDTH < COLUMNS /\
   in_frame (py `div` FRAME_HEIGHT) (px `div` FRAME_WIDTH) px py = true) /\
  (forall row col,
     in_frame row col px py = true ->
     row = py `div` FRAME_HEIGHT /\ col = px `div` FRAME_WIDTH) /\
  (forall row col,
     0 <= row < ROWS -> 0 <= col < COLUMNS ->
     in_frame row col px py = true -> in_bounds blank_sheet px py = true).
Proof.
  unfold in_frame, frame_box, in_bounds, blank_sheet, Image.new, x, y,
    SPRITE_SHEET_WIDTH, SPRITE_SHEET_HEIGHT, FRAME_WIDTH, FRAME_HEIGHT,
    ROWS, COLUMNS.
  cbn [im_size fst snd].
  split; [|split].
  - rewrite !andb_true_iff, !Z.leb_le, !Z.ltb_lt. intros H.
    split; [|split]; [| |apply in_box_true; cbn [fst snd]];
      Z.to_euclidean_division_equations; lia.
  - intros row col H. apply in_box_true in H. cbn [fst snd] in H.
    Z.to_euclidean_division_equations; lia.
  - intros row col Hr Hc H. apply in_box_true in H. cbn [fst snd] in H.
    rewrite !andb_true_iff, !Z.leb_le, !Z.ltb_lt. lia.
Qed.

(** ** The direction table and the arrow *)

Lemma angle_map_outside (row : Z) :
  ~ 0 <= row < ROWS -> angle_map !! row = None.
Proof.
  unfold ROWS, angle_map. intros H.
  rewrite !lookup_insert_ne by lia. apply lookup_empty.
Qed.

(** X6: [angle_map] has no key outside 0..7: for any other row index the
    lookup raises [KeyError] with that index, and so does drawing a frame in
    such a row, which leaves the world as it was. *)
Theorem frame_outside_table_raises (row col : Z) (sheet : Image) (w : World) :
  ~ 0 <= row < ROWS ->
  angle_deg row = Err (KeyError row) /\
  draw_frame row col sheet w = (Err (KeyError row), w).
Proof.
  intros H.
  assert (Hdeg : angle_deg row = Err (KeyError row)).
  { unfold angle_deg, dict_getitem. rewrite (angle_map_outside row H).
    reflexivity. }
  split; [exact Hdeg|].
  unfold draw_frame, mbind, M_bind, bind, lift, arrow_tip. cbv zeta beta.
  rewrite Hdeg. reflexivity.
Qed.

Lemma frame_outside_table_raises_witness :
  angle_deg 8 = Err (KeyError 8) /\
  draw_frame 8 0 blank_sheet root_checkout = (Err (KeyError 8), root_checkout).
Proof.
  apply (frame_outside_table_raises 8 0 blank_sheet root_checkout).
  unfold ROWS. lia.
Defined.

Lemma enumerate_directions (rd : Z * string) :
  rd ∈ enumerate DIRECTIONS ->
  rd = (0, "South") \/ rd = (1, "South-East") \/ rd = (2, "East") \/
  rd = (3, "North-East") \/ rd = (4, "North") \/ rd = (5, "North-West") \/
  rd = (6, "West") \/ rd = (7, "South-West").
Proof.
  unfold enumerate, DIRECTIONS. cbn [imap].
  rewrite !elem_of_cons, elem_of_nil. tauto.
Qed.

Lemma heads_as_named_everywhere (row col : Z) (name : string) :
  0 <= col < COLUMNS ->
  (row, name) ∈ enumerate DIRECTIONS ->
  heads_as_named name
    (float_of_int (center_x col)) (float_of_int (center_y row))
    (tip_of row col).1 (tip_of row col).2 = true.
Proof.
  intros Hc Hin. apply enumerate_directions in Hin.
  repeat (destruct Hin as [Hin | Hin]);
    injection Hin as -> ->; each_column Hc; vm_compute; reflexivity.
Qed.

(** X7: in every frame the arrow heads the way its row is named, in image
    coordinates: for a name with South the tip is below the frame centre,
    with North above it, with East to its right, with West to its left; a
    name without East or West keeps the tip's x equal to the centre's, and a
    name without North or South keeps its y equal. *)
Theorem arrow_heads_as_named (row col : Z) (name : string) :
  0 <= col < COLUMNS ->
  (row, name) ∈ enumerate DIRECTIONS ->
  exists ax ay,
    arrow_tip row col = Ok (ax, ay) /\
    (mentions "South" name = true ->
       (float_of_int (center_y row) <? ay)%float = true) /\
    (mentions "North" name = true ->
       (ay <? float_of_int (center_y row))%float = true) /\
    (mentions "East" name = true ->
       (float_of_int (center_x col) <? ax)%float = true) /\
    (mentions "West" name = true ->
       (ax <? float_of_int (center_x col))%float = true) /\
    (mentions "East" name = false -> mentions "West" name = false ->
       (ax =? float_of_int (center_x col))%float = true) /\
    (mentions "North" name = false -> mentions "South" name = false ->
       (ay =? float_of_int (center_y row))%float = true).
Proof.
  intros Hc Hin.
  pose proof (heads_as_named_everywhere row col name Hc Hin) as Hhead.
  exists (tip_of row col).1, (tip_of row col).2. split.
  - rewrite arrow_tip_rows by exact (enumerate_rows _ Hin).
    destruct (tip_of row col); reflexivity.
  - unfold heads_as_named in Hhead. rewrite !andb_true_iff in Hhead.
    destruct Hhead as [[[[[HS HN] HE] HW] HX] HY].
    repeat split.
    + intros Hm. rewrite Hm in HS. exact HS.
    + intros Hm. rewrite Hm in HN. exact HN.
    + intros Hm. rewrite Hm in HE. exact HE.
    + intros Hm. rewrite Hm in HW. exact HW.
    + intros Hm1 Hm2. rewrite Hm1, Hm2 in HX. exact HX.
    + intros Hm1 Hm2. rewrite Hm1, Hm2 in HY. exact HY.
Qed.

Lemma arrow_heads_as_named_witness :
  exists ax ay,
    arrow_tip 7 2 = Ok (ax, ay) /\
    (mentions "South" "South-West" = true ->
       (float_of_int (center_y 7) <? ay)%float = true) /\
    (mentions "North" "South-West" = true ->
       (ay <? float_of_int (center_y 7))%float = true) /\
    (mentions "East" "South-West" = true ->
       (float_of_int (center_x 2) <? ax)%float = true) /\
    (mentions "West" "South-West" = true ->
       (ax <? float_of_int (center_x 2))%float = true) /\
    (mentions "East" "South-West" = false ->
     mentions "West" "South-West" = false ->
       (ax =? float_of_int (center_x 2))%float = true) /\
    (mentions "North" "South-West" = false ->
     mentions "South" "South-West" = false ->
       (ay =? float_of_int (center_y 7))%float = true).
Proof.
  apply (arrow_heads_as_named 7 2 "South-West").
  - unfold COLUMNS. lia.
  - unfold enumerate, DIRECTIONS. cbn [imap]. rewrite !elem_of_cons. tauto.
Defined.

Lemma indicator_on_body_everywhere (row col : Z) :
  0 <= row < ROWS -> 0 <= col < COLUMNS -> indicator_on_body row col = true.
Proof.
  intros Hr Hc. each_row Hr; each_column Hc; vm_compute; reflexivity.
Qed.

(** X8: in every frame the arrow line and the dot at its tip paint only
    inside the bounding box of the body circle, so the direction indicator
    always sits on the body. *)
Theorem indicator_stays_on_body (row col : Z) (im : Image) (px py : Z) :
  0 <= row < ROWS ->
  0 <= col < COLUMNS ->
  ImageDraw.in_box (body_box row col) px py = false ->
  im_pixel (tip_op (tip_of row col) (arrow_op row col (tip_of row col) im))
    px py
  = im_pixel im px py.
Proof.
  intros Hr Hc Hout.
  pose proof (indicator_on_body_everywhere row col Hr Hc) as Hon.
  unfold indicator_on_body in Hon. rewrite andb_true_iff in Hon.
  destruct Hon as [Harrow Hdot].
  unfold tip_op. rewrite ellipse_outside
    by exact (in_box_within _ _ _ _ Hdot Hout).
  unfold arrow_op. apply line_outside.
  exact (in_box_within _ _ _ _ Harrow Hout).
Qed.

Lemma indicator_stays_on_body_witness :
  im_pixel (tip_op (tip_of 5 1) (arrow_op 5 1 (tip_of 5 1) blank_sheet)) 100 500
  = im_pixel blank_sheet 100 500.
Proof.
  apply (indicator_stays_on_body 5 1 blank_sheet 100 500).
  - unfold ROWS. lia.
  - unfold COLUMNS. lia.
  - vm_compute. reflexivity.
Defined.

(** ** Frames do not interfere *)

Lemma paint_agree (mask : Z -> Z -> bool) (ink : RGBA) (im im' : Image)
    (px py : Z) :
  agree_at px py im im' ->
  agree_at px py (ImageDraw.paint mask ink im) (ImageDraw.paint mask ink im').
Proof.
  intros [Hsize Hpix]. split; [exact Hsize|].
  unfold ImageDraw.paint, in_bounds. cbn [im_pixel].
  rewrite Hsize, Hpix. reflexivity.
Qed.

Lemma ellipse_agree (im im' : Image) (xy : float * float * float * float)
    (fill outline : option RGBA) (width px py : Z) :
  agree_at px py im im' ->
  agree_at px py (ImageDraw.ellipse im xy fill outline width)
    (ImageDraw.ellipse im' xy fill outline width).
Proof.
  intros H. unfold ImageDraw.ellipse.
  destruct (ImageDraw.getink outline fill) as [[c|] [f|]];
    try destruct (bool_decide _);
    repeat apply paint_agree; exact H.
Qed.

Lemma line_agree (im im' : Image) (xy : (float * float) * (float * float))
    (fill : option RGBA) (width px py : Z) :
  agree_at px py im im' ->
  agree_at px py (ImageDraw.line im xy fill width)
    (ImageDraw.line im' xy fill width).
Proof. intros H. unfold ImageDraw.line. apply paint_agree, H. Qed.

Lemma text_agree (im im' : Image) (xy : Z * Z) (label : string)
    (fill : option RGBA) (font : Font) (px py : Z) :
  agree_at px py im im' ->
  agree_at px py (ImageDraw.text im xy label fill font)
    (ImageDraw.text im' xy label fill font).
Proof.
  intros [Hsize Hpix]. split; [exact Hsize|].
  unfold ImageDraw.text, in_bounds. cbn [im_pixel].
  rewrite Hsize, Hpix. reflexivity.
Qed.

Lemma frame_agree (font : Font) (row col : Z) (tip : float * float)
    (im im' : Image) (px py : Z) :
  agree_at px py im im' ->
  agree_at px py (apply_ops (frame_ops font row col tip) im)
    (apply_ops (frame_ops font row col tip) im').
Proof.
  intros H. unfold apply_ops, frame_ops, body_op, arrow_op, tip_op, label_op.
  cbn [fold_left].
  apply text_agree, ellipse_agree, line_agree, ellipse_agree, H.
Qed.

Lemma frame_stays (font : Font) (row col : Z) (im : Image) (px py : Z) :
  0 <= row < ROWS ->
  0 <= col < COLUMNS ->
  label_fits font col ->
  in_frame row col px py = false ->
  agree_at px py (apply_ops (frame_ops font row col (tip_of row col)) im) im.
Proof.
  intros Hrow Hcol Hfit Hout.
  split; [apply frame_shape|].
  pose proof (geometry_ok_everywhere row col Hrow Hcol) as Hgeo.
  unfold geometry_ok in Hgeo. rewrite !andb_true_iff in Hgeo.
  destruct Hgeo as [[[[_ _] Hbody] Harrow] Hdot].
  unfold apply_ops, frame_ops, body_op, arrow_op, tip_op, label_op.
  cbn [fold_left].
  rewrite text_outside.
  - rewrite ellipse_outside by exact (in_box_within _ _ _ _ Hdot Hout).
    rewrite line_outside by exact (in_box_within _ _ _ _ Harrow Hout).
    apply ellipse_outside. exact (in_box_within _ _ _ _ Hbody Hout).
  - apply not_true_is_false. intros Hin.
    apply not_true_iff_false in Hout. apply Hout.
    apply in_box_true. apply in_box_true in Hin.
    unfold label_fits in Hfit.
    unfold frame_box, x, y, FRAME_WIDTH, FRAME_HEIGHT in *.
    cbn [fst snd] in *. lia.
Qed.

Lemma in_frame_unique (row col row' col' px py : Z) :
  in_frame row col px py = true ->
  in_frame row' col' px py = true ->
  row' = row /\ col' = col.
Proof.
  unfold in_frame, frame_box, x, y, FRAME_WIDTH, FRAME_HEIGHT.
  intros H H'. apply in_box_true in H, H'. cbn [fst snd] in *. lia.
Qed.

Lemma fold_left_once {A S K} (key : A -> K) (k : K) (f : S -> A -> S)
    (Before After : S -> Prop) (l : list A) :
  NoDup (key <$> l) ->
  k ∈ key <$> l ->
  (forall a s, a ∈ l -> key a <> k -> Before s -> Before (f s a)) ->
  (forall a s, a ∈ l -> key a <> k -> After s -> After (f s a)) ->
  (forall a s, a ∈ l -> key a = k -> Before s -> After (f s a)) ->
  forall s, Before s -> After (fold_left f l s).
Proof.
  induction l as [|a l IH]; intros Hnd Hin Hb Ha Hat s Hs.
  - apply elem_of_nil in Hin. contradiction.
  - rewrite fmap_cons in Hnd, Hin.
    apply NoDup_cons in Hnd. destruct Hnd as [Hfresh Hnd].
    cbn [fold_left].
    apply elem_of_cons in Hin. destruct Hin as [Hk | Hin].
    + apply fold_left_keeps.
      * intros s' a' Hin'. apply Ha; [now constructor|].
        intros Heq. apply Hfresh. rewrite <- Hk, <- Heq.
        apply list_elem_of_fmap. eauto.
      * apply Hat; [constructor | congruence | exact Hs].
    + apply IH; try assumption.
      * intros a' s' Hin'. apply Hb. now constructor.
      * intros a' s' Hin'. apply Ha. now constructor.
      * intros a' s' Hin'. apply Hat. now constructor.
      * apply Hb; [constructor | | exact Hs].
        intros Heq. apply Hfresh. rewrite Heq. exact Hin.
Qed.

Lemma range_columns : range COLUMNS = [0; 1; 2; 3; 4; 5].
Proof. reflexivity. Qed.

Lemma range_columns_bounds (col : Z) :
  col ∈ range COLUMNS <-> 0 <= col < COLUMNS.
Proof.
  rewrite range_columns, !elem_of_cons, elem_of_nil. unfold COLUMNS. lia.
Qed.

Lemma painted_sheet_frame (font : Font) (row col px py : Z) :
  0 <= row < ROWS ->
  0 <= col < COLUMNS ->
  (forall c, 0 <= c < COLUMNS -> label_fits font c) ->
  in_frame row col px py = true ->
  agree_at px py (painted_sheet font)
    (apply_ops (frame_ops font row col (tip_of row col)) blank_sheet).
Proof.
  intros Hrow Hcol Hfit Hin.
  set (alone := apply_ops (frame_ops font row col (tip_of row col)) blank_sheet).
  assert (Hother : forall r c target im,
            0 <= r < ROWS -> 0 <= c < COLUMNS -> (r <> row \/ c <> col) ->
            agree_at px py im target ->
            agree_at px py
              (apply_ops (frame_ops font r c (tip_of r c)) im) target).
  { intros r c target im Hr Hc Hne [Hsize Hpix].
    destruct (frame_stays font r c im px py Hr Hc (Hfit c Hc)) as [Hs Hp].
    - apply not_true_is_false. intros Hin'.
      destruct (in_frame_unique _ _ _ _ _ _ Hin Hin'). lia.
    - split; congruence. }
  unfold painted_sheet. fold blank_sheet.
  apply (fold_left_once fst row _
           (fun im => agree_at px py im blank_sheet)
           (fun im => agree_at px py im alone)).
  - apply (bool_decide_unpack _). vm_compute. exact I.
  - change (fst <$> enumerate DIRECTIONS) with [0; 1; 2; 3; 4; 5; 6; 7].
    rewrite !elem_of_cons, elem_of_nil. unfold ROWS in Hrow. lia.
  - intros rd sheet Hrd Hne.
    apply (fold_left_keeps _ (fun im => agree_at px py im blank_sheet)).
    intros sheet' c Hc. apply range_columns_bounds in Hc.
    apply Hother; [exact (enumerate_rows _ Hrd) | exact Hc | tauto].
  - intros rd sheet Hrd Hne.
    apply (fold_left_keeps _ (fun im => agree_at px py im alone)).
    intros sheet' c Hc. apply range_columns_bounds in Hc.
    apply Hother; [exact (enumerate_rows _ Hrd) | exact Hc | tauto].
  - intros rd sheet Hrd Hkey.
    apply (fold_left_once (fun c : Z => c) col _
             (fun im => agree_at px py im blank_sheet)
             (fun im => agree_at px py im alone)).
    + apply (bool_decide_unpack _). vm_compute. exact I.
    + rewrite list_fmap_id. apply range_columns_bounds, Hcol.
    + intros c sheet' Hc Hne. apply range_columns_bounds in Hc.
      apply Hother; [exact (enumerate_rows _ Hrd) | exact Hc | tauto].
    + intros c sheet' Hc Hne. apply range_columns_bounds in Hc.
      apply Hother; [exact (enumerate_rows _ Hrd) | exact Hc | tauto].
    + intros c sheet' Hc Heq Hb. subst c. rewrite Hkey.
      apply frame_agree, Hb.
  - split; reflexivity.
Qed.

(** X9: frames do not interfere.  When every column's label fits its frame,
    each pixel of a frame of the finished sheet is the pixel that frame's
    four drawing calls alone produce on a blank sheet: no other frame, drawn
    earlier or later, has any effect on it. *)
Theorem frame_is_as_drawn_alone (font : Font) (row col px py : Z) :
  0 <= row < ROWS ->
  0 <= col < COLUMNS ->
  (forall c, 0 <= c < COLUMNS -> label_fits font c) ->
  in_frame row col px py = true ->
  im_pixel (painted_sheet font) px py =
    im_pixel (apply_ops (frame_ops font row col (tip_of row col)) blank_sheet)
      px py.
Proof.
  intros Hrow Hcol Hfit Hin.
  exact (proj2 (painted_sheet_frame font row col px py Hrow Hcol Hfit Hin)).
Qed.

Lemma block_font_fits (c : Z) : 0 <= c < COLUMNS -> label_fits block_font c.
Proof. intros _. unfold label_fits. cbn. lia. Qed.

Lemma frame_is_as_drawn_alone_witness :
  im_pixel (painted_sheet block_font) 300 400 =
    im_pixel (apply_ops (frame_ops block_font 4 3 (tip_of 4 3)) blank_sheet)
      300 400.
Proof.
  apply (frame_is_as_drawn_alone block_font 4 3 300 400).
  - unfold ROWS. lia.
  - unfold COLUMNS. lia.
  - exact block_font_fits.
  - vm_compute. reflexivity.
Defined.

(** ** Every frame is marked *)

Lemma c_int_center_x (col : Z) :
  0 <= col < COLUMNS -> c_int (float_of_int (center_x col)) = center_x col.
Proof. intros H. each_column H; vm_compute; reflexivity. Qed.

Lemma c_int_center_y (row : Z) :
  0 <= row < ROWS -> c_int (float_of_int (center_y row)) = center_y row.
Proof. intros H. each_row H; vm_compute; reflexivity. Qed.

Lemma on_line_start (p0 p1 : Z * Z) (width : Z) :
  0 <= width -> ImageDraw.on_line p0 p1 width p0.1 p0.2 = true.
Proof.
  intros Hw. destruct p0 as [x0 y0], p1 as [x1 y1].
  unfold ImageDraw.on_line. cbn [fst snd].
  destruct ((x1 - x0 =? 0) && (y1 - y0 =? 0)).
  - rewrite !Z.eqb_refl. reflexivity.
  - pose proof (Z.square_nonneg (x1 - x0)) as Hdx.
    pose proof (Z.square_nonneg (y1 - y0)) as Hdy.
    pose proof (Z.square_nonneg width) as Hww.
    assert (Hwide : 0 <= width * width
                      * ((x1 - x0) * (x1 - x0) + (y1 - y0) * (y1 - y0)))
      by (apply Z.mul_nonneg_nonneg; lia).
    replace (x0 - x0) with 0 by lia. replace (y0 - y0) with 0 by lia.
    rewrite !andb_true_iff, !Z.leb_le. repeat split; [|lia|lia|lia].
    apply in_box_true.
    unfold ImageDraw.grow, ImageDraw.segment_box. cbn [fst snd]. lia.
Qed.

Lemma line_paints_start (im : Image) (x0 y0 : float) (tip : float * float)
    (ink : RGBA) (width : Z) :
  in_bounds im (c_int x0) (c_int y0) = true ->
  im_pixel (ImageDraw.line im ((x0, y0), tip) (Some ink) width)
    (c_int x0) (c_int y0) = ink.
Proof.
  intros Hb. unfold ImageDraw.line, ImageDraw.paint. cbn [im_pixel fst snd].
  pose proof (on_line_start (c_int x0, c_int y0) (c_int tip.1, c_int tip.2)
                (Z.max width 1)) as Hon.
  cbn [fst snd] in Hon. rewrite Hb, Hon by lia.
  reflexivity.
Qed.

Lemma filled_ellipse_pixel (im : Image) (xy : float * float * float * float)
    (ink : RGBA) (width px py : Z) :
  im_pixel (ImageDraw.ellipse im xy (Some ink) None width) px py = ink \/
  im_pixel (ImageDraw.ellipse im xy (Some ink) None width) px py
  = im_pixel im px py.
Proof.
  unfold ImageDraw.ellipse, ImageDraw.paint. cbn [ImageDraw.getink im_pixel].
  destruct (in_bounds im px py && _); [left | right]; reflexivity.
Qed.

Lemma blend_keeps_opacity (m a : Z) :
  0 <= m <= 255 -> 200 <= a <= 255 -> 200 <= ImageDraw.blend m a 200.
Proof.
  intros Hm Ha. unfold ImageDraw.blend.
  assert (Ht : 51128 <= a * (255 - m) + 200 * m + 128) by nia.
  rewrite !Z.shiftr_div_pow2 by lia. change (2 ^ 8) with 256.
  Z.to_euclidean_division_equations. lia.
Qed.

Lemma text_keeps_opacity (im : Image) (xy : Z * Z) (label : string)
    (r g b : Z) (font : Font) (px py : Z) :
  (forall i j, 0 <= bm_coverage (font label) i j <= 255) ->
  200 <= alpha (im_pixel im px py) <= 255 ->
  200 <= alpha (im_pixel (ImageDraw.text im xy label (Some (r, g, b, 200)) font)
                  px py).
Proof.
  intros Hcov Hold. unfold ImageDraw.text. cbn [im_pixel].
  destruct (in_bounds im px py && _ && _); [|lia].
  unfold alpha at 1. cbn [snd ImageDraw.getink fst default].
  apply blend_keeps_opacity; [apply Hcov | exact Hold].
Qed.

(** X10: no frame of the finished sheet is empty.  For a font whose labels
    fit their frames and whose mask values are in 0..255, the pixel at the
    centre of every frame, where the arrow starts, is there and has alpha
    at least 200. *)
Theorem every_frame_is_marked (font : Font) (row col : Z) :
  0 <= row < ROWS ->
  0 <= col < COLUMNS ->
  (forall c, 0 <= c < COLUMNS -> label_fits font c) ->
  (forall label i j, 0 <= bm_coverage (font label) i j <= 255) ->
  exists v,
    getpixel (painted_sheet font) (center_x col) (center_y row) = Some v /\
    200 <= alpha v.
Proof.
  intros Hrow Hcol Hfit Hcov.
  assert (Hxy : 0 <= center_x col < 576 /\ 0 <= center_y row < 768).
  { unfold center_x, center_y, x, y, FRAME_WIDTH, FRAME_HEIGHT, ROWS, COLUMNS in *.
    change (96 `div` 2) with 48. lia. }
  assert (Hin : in_frame row col (center_x col) (center_y row) = true).
  { apply in_box_true.
    unfold frame_box, center_x, center_y, x, y, FRAME_WIDTH, FRAME_HEIGHT.
    change (96 `div` 2) with 48. cbn [fst snd]. lia. }
  assert (Hbounds : forall im, im_size im = (576, 768) ->
            in_bounds im (center_x col) (center_y row) = true).
  { intros im Hsize. unfold in_bounds. rewrite Hsize. cbn [fst snd].
    rewrite !andb_true_iff, !Z.leb_le, !Z.ltb_lt. lia. }
  eexists. split.
  - unfold getpixel.
    rewrite (Hbounds _ (proj1 (painted_sheet_shape font))). reflexivity.
  - rewrite (proj2 (painted_sheet_frame font row col _ _ Hrow Hcol Hfit Hin)).
    unfold apply_ops, frame_ops. cbn [fold_left]. unfold label_op.
    apply text_keeps_opacity; [apply Hcov|].
    assert (Harrow : im_pixel (arrow_op row col (tip_of row col)
                                 (body_op row col blank_sheet))
                       (center_x col) (center_y row) = (255, 200, 0, 255)).
    { pose proof (line_paints_start (body_op row col blank_sheet)
                    (float_of_int (center_x col)) (float_of_int (center_y row))
                    (tip_of row col) (255, 200, 0, 255) 3) as Hline.
      rewrite (c_int_center_x col Hcol), (c_int_center_y row Hrow) in Hline.
      apply Hline, Hbounds.
      unfold body_op. rewrite (proj1 (ellipse_shape _ _ _ _ _)). reflexivity. }
    assert (Htip : im_pixel
                     (tip_op (tip_of row col)
                        (arrow_op row col (tip_of row col)
                           (body_op row col blank_sheet)))
                     (center_x col) (center_y row) = (255, 200, 0, 255)).
    { unfold tip_op.
      destruct (filled_ellipse_pixel
                  (arrow_op row col (tip_of row col)
                     (body_op row col blank_sheet))
                  (((tip_of row col).1 - 3)%float,
                   ((tip_of row col).2 - 3)%float,
                   ((tip_of row col).1 + 3)%float,
                   ((tip_of row col).2 + 3)%float)
                  (255, 200, 0, 255) 1 (center_x col) (center_y row))
        as [Hp | Hp]; [exact Hp | exact (eq_trans Hp Harrow)]. }
    rewrite Htip. unfold alpha. cbn [snd]. lia.
Qed.

Lemma every_frame_is_marked_witness :
  exists v,
    getpixel (painted_sheet block_font) (center_x 5) (center_y 7) = Some v /\
    200 <= alpha v.
Proof.
  apply (every_frame_is_marked block_font 7 5).
  - unfold ROWS. lia.
  - unfold COLUMNS. lia.
  - exact block_font_fits.
  - intros label i j. cbn. lia.
Defined.

(** ** The pulsation *)

(** X11: the pulsation of the body mirrors itself over half a cycle: what
    the radius of column [col] is above 25, the radius of column [col + 3]
    is below it, so the two add up to exactly 50, for the three column
    pairs of a row. *)
Theorem radius_mirrors_over_half_cycle (col : Z) :
  0 <= col < 3 ->
  (body_radius col + body_radius (col + 3))%float = 50%float.
Proof.
  intros H.
  assert (Hcases : col = 0 \/ col = 1 \/ col = 2) by lia.
  destruct Hcases as [-> | [-> | ->]]; vm_compute; reflexivity.
Qed.

Lemma radius_mirrors_over_half_cycle_witness :
  (body_radius 1 + body_radius (1 + 3))%float = 50%float.
Proof. apply (radius_mirrors_over_half_cycle 1). lia. Defined.
